(** * Guest customization of a virtual machine (package [session])

    A shallow embedding of [customize] and of the functions it calls:
    the transport switch, the construction of the configuration spec and
    of the customization spec, the pending-customization guard, the
    metadata templating and the network device status.

    Go strings are byte strings ([string]); a Go [map[string]string] is a
    [gmap string string], and reading an absent key yields the empty
    string; a nil pointer or nil interface is [None]; a nil slice and an
    empty slice are both [[]]. *)

From Stdlib Require Import Ascii DecimalString.
From stdpp Require Import base option list strings gmap fin_maps.

(** ** Package [strings] of the Go library *)

Module strings.

(** [strings.HasPrefix]. *)
Definition HasPrefix (s pre : string) : bool := String.prefix pre s.

(** [strings.Contains]: [substr] occurs in [s] at some offset. *)
Fixpoint Contains (s substr : string) : bool :=
  String.prefix substr s ||
  match s with
  | EmptyString => false
  | String _ rest => Contains rest substr
  end.

(** [strings.ReplaceAll] for a non-empty [old]: the occurrences of [old]
    are found from left to right and do not overlap.  [skip] is the
    number of bytes of the current occurrence still to be dropped. *)
Fixpoint replaceFrom (skip : nat) (s old new : string) : string :=
  match s with
  | EmptyString => EmptyString
  | String c rest =>
      match skip with
      | S k => replaceFrom k rest old new
      | O =>
          if String.prefix old s
          then new +:+ replaceFrom (String.length old - 1) rest old new
          else String c (replaceFrom 0 rest old new)
      end
  end.

(** With an empty [old] Go inserts [new] before every character and
    at the end; [customize] never passes one. *)
Fixpoint intersperse (s new : string) : string :=
  match s with
  | EmptyString => new
  | String c rest => new +:+ String c (intersperse rest new)
  end.

Definition ReplaceAll (s old new : string) : string :=
  match old with
  | EmptyString => intersperse s new
  | String _ _ => replaceFrom 0 s old new
  end.

End strings.

(** ** Errors and faults *)

(** The dynamic type of a [vimTypes.BaseMethodFault]. *)
Inductive MethodFault : Type :=
  | CustomizationPending
  | CustomizationFault
  | InvalidPowerState
  | TaskInProgress
  | OtherFault (typeName : string).

(** A Go [error]: a [task.Error] carrying a fault, or any other error,
    of which only the message is kept ([fmt.Errorf] builds such ones). *)
Inductive error : Type :=
  | TaskError (fault : MethodFault) (msg : string)
  | ErrorString (msg : string).

Definition Error (e : error) : string :=
  match e with
  | TaskError _ msg => msg
  | ErrorString msg => msg
  end.

(** [fmt.Errorf(prefix + " %v", err)]. *)
Definition Errorf (pre : string) (e : error) : error :=
  ErrorString (pre +:+ " " +:+ Error e).

(** A Go pair [(value, err)] of which one component is meaningful. *)
Inductive result (A : Type) : Type :=
  | Ok (a : A)
  | Err (e : error).
Arguments Ok {A} a.
Arguments Err {A} e.

(** ** Data model *)

(** The value of an option is an [interface{}] ([anyType]). *)
Inductive AnyValue : Type :=
  | AnyNil
  | AnyString (s : string)
  | AnyInt (n : Z)
  | AnyBool (b : bool).

Record OptionValue : Type := mkOptionValue {
  Key : string;
  Value : AnyValue
}.

(** A [vimTypes.BaseOptionValue]; [None] is an element whose
    [GetOptionValue()] is nil. *)
Definition BaseOptionValue : Type := option OptionValue.

Record IPConfig : Type := mkIPConfig {
  IP : string;
  SubnetMask : string;
  Gateway : string
}.

(** [network.InterfaceInfo]: [customize] reads its [IPConfiguration];
    the rest is only handed to functions of package [network]. *)
Record InterfaceInfo : Type := mkInterfaceInfo {
  IPConfiguration : IPConfig
}.

Record NetworkDeviceStatus : Type := mkNetworkDeviceStatus {
  Gateway4 : string;
  IPAddresses : list string
}.

Record NetworkStatus : Type := mkNetworkStatus {
  Devices : list NetworkDeviceStatus;
  Nameservers : list string
}.

(** The fields of [v1alpha1.VirtualMachine] that are read. *)
Record VirtualMachine : Type := mkVirtualMachine {
  Name : string;
  UID : string;
  Annotations : gmap string string
}.

Record VMMetadata : Type := mkVMMetadata {
  Data : gmap string string;
  Transport : string
}.

Record VMUpdateArgs : Type := mkVMUpdateArgs {
  Metadata : VMMetadata;
  NetIfList : list InterfaceInfo;
  DNSServers : list string
}.

(** [m[k]] on a Go map. *)
Definition index (m : gmap string string) (k : string) : string :=
  default "" (m !! k).

(** ** Package [network]: CIDR notation *)

Module network.

(** Modelled from the spec: package [network] is not among the sources.
    The fields of a dotted mask, [acc] being the field that is read. *)
Fixpoint splitDots (acc s : string) : list string :=
  match s with
  | EmptyString => [acc]
  | String c rest =>
      if Ascii.eqb c "."%char
      then acc :: splitDots "" rest
      else splitDots (acc +:+ String c "") rest
  end.

(** Modelled from the spec: a field of the mask as a decimal number. *)
Definition parseField (s : string) : option N :=
  N.of_uint <$> NilZero.uint_of_string s.

(** Modelled from the spec: the number of bits set in a field of the
    mask, which is a byte. *)
Definition bitCount (n : N) : nat :=
  length (filter (λ i, N.testbit n (N.of_nat i) = true) (seq 0 8)).

(** Modelled from the spec: the bit count of the subnet mask, that is
    the prefix length.  A field that is not a number counts for nothing;
    the spec says nothing of a malformed mask. *)
Definition maskBits (mask : string) : nat :=
  foldr (λ f acc, bitCount (default 0%N (parseField f)) + acc) 0 (splitDots "" mask).

(** Modelled from the spec: [network.ToCidrNotation] is not among the
    sources.  The address is [ip/prefixlen], the prefix length being
    derived from the bit count of the subnet mask. *)
Definition ToCidrNotation (ip mask : string) : string :=
  ip +:+ "/" +:+ NilZero.string_of_uint (Nat.to_uint (maskBits mask)).

End network.

(** ** Network device status (lines 309-322) *)

Definition NicInfoToDevicesStatus (updateArgs : VMUpdateArgs) : list NetworkDeviceStatus :=
  foldl (λ networkDevicesStatus info,
           let ipConfig := IPConfiguration info in
           let networkDevice :=
             {| Gateway4 := Gateway ipConfig;
                IPAddresses := [network.ToCidrNotation (IP ipConfig) (SubnetMask ipConfig)] |} in
           networkDevicesStatus ++ [networkDevice])
        [] (NetIfList updateArgs).

(** ** Constants and collaborators that are not among the sources *)

Module v1alpha1.
(** Modelled from the spec: the API package is not among the sources;
    the declared metadata-transport values are [CloudInit], ... *)
Definition VirtualMachineMetadataCloudInitTransport : string := "CloudInit".
(** Modelled from the spec: ... [OvfEnv], ... *)
Definition VirtualMachineMetadataOvfEnvTransport : string := "OvfEnv".
(** Modelled from the spec: ... and [ExtraConfig]. *)
Definition VirtualMachineMetadataExtraConfigTransport : string := "ExtraConfig".
End v1alpha1.

(** Package [constants] is not among the sources: its values are taken
    as parameters. *)
Record Constants : Type := mkConstants {
  GOSCPendingExtraConfigKey : string;
  ExtraConfigGuestInfoPrefix : string;
  CloudInitGuestInfoMetadata : string;
  CloudInitGuestInfoMetadataEncoding : string;
  CloudInitGuestInfoUserdata : string;
  CloudInitGuestInfoUserdataEncoding : string;
  CloudInitTypeAnnotation : string;
  CloudInitTypeValueCloudInitPrep : string;
  CloudInitTypeValueGuestInfo : string;
  VSphereCustomizationBypassKey : string;
  VSphereCustomizationBypassDisable : string
}.

(** What the Go compiler and the guest require of the constants: the
    four guest-info keys are pairwise distinct, and the cases of the
    switch on the cloud-init type are distinct. *)
Definition constants_wf (K : Constants) : bool :=
  bool_decide (NoDup [CloudInitGuestInfoMetadata K; CloudInitGuestInfoMetadataEncoding K;
                      CloudInitGuestInfoUserdata K; CloudInitGuestInfoUserdataEncoding K])
  && bool_decide (NoDup [CloudInitTypeValueCloudInitPrep K; CloudInitTypeValueGuestInfo K; ""]).

Record CloudInitMetadata (Netplan : Type) : Type := mkCloudInitMetadata {
  InstanceID : string;
  LocalHostname : string;
  Hostname : string;
  Network : Netplan;
  PublicKeys : string
}.
Arguments mkCloudInitMetadata {Netplan}.

(** The data handed to the template: [V1alpha1.Net] and [V1alpha1.VM]. *)
Record VirtualMachineTemplate : Type := mkVirtualMachineTemplate {
  Net : NetworkStatus;
  VM : VirtualMachine
}.

(** [template.New(name).Parse(templateStr)] followed by [Execute]. *)
Inductive TemplateOutcome : Type :=
  | ParseError (err : error)
  | ExecuteError (err : error)
  | Rendered (doc : string).

(** The types and functions of other packages that [customize] uses. *)
Record Platform : Type := mkPlatform {
  Netplan : Type;
  VirtualDeviceList : Type;
  CustomizationAdapterMapping : Type;
  VAppPropertyInfo : Type;
  VmConfigSpec : Type;
  IsVMServicePublicCloudBYOIFSSEnabled : bool;
  TryToDecodeBase64Gzip : string → result string;
  EncodeGzipBase64 : string → result string;
  MergeExtraConfig : list BaseOptionValue → gmap string string → list BaseOptionValue;
  GetMergedvAppConfigSpec : gmap string string → list VAppPropertyInfo → option VmConfigSpec;
  GetNetplan : list InterfaceInfo → VirtualDeviceList → list string → Netplan;
  GetInterfaceCustomizations : list InterfaceInfo → list CustomizationAdapterMapping;
  yamlMarshal : CloudInitMetadata Netplan → result string;
  templateParseExecute : string → string → VirtualMachineTemplate → TemplateOutcome
}.

Module VirtualMachineConfigInfo.
Record VmConfigInfo (P : Platform) : Type := mkVmConfigInfo {
  Property : list (VAppPropertyInfo P)
}.
Arguments mkVmConfigInfo {P}.
Arguments Property {P}.

(** [VAppConfig] is an interface: [None] is the nil interface and
    [Some None] one whose [GetVmConfigInfo()] is nil. *)
Record t (P : Platform) : Type := mk {
  ExtraConfig : list BaseOptionValue;
  VAppConfig : option (option (VmConfigInfo P))
}.
Arguments mk {P}.
Arguments ExtraConfig {P}.
Arguments VAppConfig {P}.
End VirtualMachineConfigInfo.

Module VirtualMachineConfigSpec.
(** The fields of the spec that [customize] sets; every other field
    keeps its zero value. *)
Record t (P : Platform) : Type := mk {
  ExtraConfig : list BaseOptionValue;
  VAppConfig : option (VmConfigSpec P);
  VAppConfigRemoved : option bool
}.
Arguments mk {P}.
Arguments ExtraConfig {P}.
Arguments VAppConfig {P}.
Arguments VAppConfigRemoved {P}.

End VirtualMachineConfigSpec.

Inductive CustomizationIdentity : Type :=
  | CustomizationLinuxPrep (HostName : string) (HwClockUTC : option bool)
  | CustomizationCloudinitPrep (Metadata Userdata : string).

Module CustomizationSpec.
Record t (P : Platform) : Type := mk {
  Identity : CustomizationIdentity;
  DnsServerList : list string;
  NicSettingMap : list (CustomizationAdapterMapping P)
}.
Arguments mk {P}.
Arguments Identity {P}.
Arguments DnsServerList {P}.
Arguments NicSettingMap {P}.
End CustomizationSpec.

(** The remote side of one pass: what the calls on the VM answer. *)
Record ResVM (P : Platform) : Type := mkResVM {
  GetNetworkDevices : result (VirtualDeviceList P);
  Reconfigure : VirtualMachineConfigSpec.t P → option error;
  Customize : CustomizationSpec.t P → option error
}.
Arguments mkResVM {P}.
Arguments GetNetworkDevices {P}.
Arguments Reconfigure {P}.
Arguments Customize {P}.

(** The calls made on the VM during a pass, oldest first. *)
Inductive Call (P : Platform) : Type :=
  | CallGetNetworkDevices
  | CallReconfigure (configSpec : VirtualMachineConfigSpec.t P)
  | CallCustomize (custSpec : CustomizationSpec.t P).
Arguments CallGetNetworkDevices {P}.
Arguments CallReconfigure {P}.
Arguments CallCustomize {P}.

(** How a pass ends: [customize] returns its error, or panics. *)
Inductive Completion : Type :=
  | Returned (err : option error)
  | Panicked.

Record PassOutcome (P : Platform) : Type := mkPassOutcome {
  completion : Completion;
  calls : list (Call P);
  stored : gmap string string
}.
Arguments mkPassOutcome {P}.
Arguments completion {P}.
Arguments calls {P}.
Arguments stored {P}.

(** ** The functions of the package *)

Definition nonEmpty (s : string) : bool := negb (String.eqb s "").

Section session.

Context (P : Platform) (K : Constants).

#[local] Abbreviation ConfigInfo := (VirtualMachineConfigInfo.t P).
#[local] Abbreviation ConfigSpec := (VirtualMachineConfigSpec.t P).
#[local] Abbreviation CustSpec := (CustomizationSpec.t P).

(** Lines 28-37.  The answer is that of the first option under the
    pending key; [None] is the panic of the type assertion
    [optValue.Value.(string)] on a value that is not a string. *)
Fixpoint IsCustomizationPendingExtraConfig (extraConfig : list BaseOptionValue) : option bool :=
  match extraConfig with
  | [] => Some false
  | opt :: rest =>
      match opt with
      | Some optValue =>
          if String.eqb (Key optValue) (GOSCPendingExtraConfigKey K)
          then match Value optValue with
               | AnyString s => Some (nonEmpty s)
               | _ => None
               end
          else IsCustomizationPendingExtraConfig rest
      | None => IsCustomizationPendingExtraConfig rest
      end
  end.

(** Lines 39-46. *)
Definition isCustomizationPendingError (err : error) : bool :=
  match err with
  | TaskError CustomizationPending _ => true
  | _ => false
  end.

(** Lines 48-61. *)
Definition GetLinuxPrepCustSpec (vmName : string) (updateArgs : VMUpdateArgs) : CustSpec :=
  {| CustomizationSpec.Identity := CustomizationLinuxPrep vmName (Some true);
     CustomizationSpec.DnsServerList := DNSServers updateArgs;
     CustomizationSpec.NicSettingMap := GetInterfaceCustomizations P (NetIfList updateArgs) |}.

(** Lines 71-89. *)
Definition GetCloudInitMetadata (vm : VirtualMachine) (netplan : Netplan P)
    (data : gmap string string) : result string :=
  let metadataObj :=
    {| InstanceID := UID vm;
       LocalHostname := Name vm;
       Hostname := Name vm;
       Network := netplan;
       PublicKeys := index data "ssh-public-keys" |} in
  match yamlMarshal P metadataObj with
  | Err err => Err (Errorf "yaml marshalling of cloud-init metadata failed" err)
  | Ok metadataBytes => Ok metadataBytes
  end.

(** Lines 91-112. *)
Definition GetCloudInitPrepCustSpec (cloudInitMetadata : string)
    (updateArgs : VMUpdateArgs) : result CustSpec :=
  let userdata := index (Data (Metadata updateArgs)) "user-data" in
  let spec (userdata : string) : CustSpec :=
    {| CustomizationSpec.Identity := CustomizationCloudinitPrep cloudInitMetadata userdata;
       CustomizationSpec.DnsServerList := [];
       CustomizationSpec.NicSettingMap := [] |} in
  if nonEmpty userdata then
    match TryToDecodeBase64Gzip P userdata with
    | Err err => Err (Errorf "decoding cloud-init prep userdata failed" err)
    | Ok plainText => Ok (spec plainText)
    end
  else Ok (spec userdata).

(** Lines 128-137: the userdata is read under ['user-data'] and, when
    that is empty, under ['value']. *)
Definition lookupUserdata (data : gmap string string) : string :=
  let userdata := index data "user-data" in
  if nonEmpty userdata then userdata
  else let value := index data "value" in
       if nonEmpty value then value else "".

(** Lines 114-164. *)
Definition GetCloudInitGuestInfoCustSpec (cloudInitMetadata : string)
    (config : ConfigInfo) (updateArgs : VMUpdateArgs) : result ConfigSpec :=
  let extraConfig : gmap string string := ∅ in
  match EncodeGzipBase64 P cloudInitMetadata with
  | Err err => Err (Errorf "encoding cloud-init metadata failed" err)
  | Ok encodedMetadata =>
      let extraConfig := <[CloudInitGuestInfoMetadata K := encodedMetadata]> extraConfig in
      let extraConfig := <[CloudInitGuestInfoMetadataEncoding K := "gzip+base64"]> extraConfig in
      let data := lookupUserdata (Data (Metadata updateArgs)) in
      let finish (extraConfig : gmap string string) : ConfigSpec :=
        {| VirtualMachineConfigSpec.ExtraConfig :=
             MergeExtraConfig P (VirtualMachineConfigInfo.ExtraConfig config) extraConfig;
           VirtualMachineConfigSpec.VAppConfig := None;
           VirtualMachineConfigSpec.VAppConfigRemoved := Some true |} in
      if nonEmpty data then
        match TryToDecodeBase64Gzip P data with
        | Err err => Err (Errorf "decoding cloud-init userdata failed" err)
        | Ok plainText =>
            match EncodeGzipBase64 P plainText with
            | Err err => Err (Errorf "encoding cloud-init userdata failed" err)
            | Ok encodedUserdata =>
                let extraConfig := <[CloudInitGuestInfoUserdata K := encodedUserdata]> extraConfig in
                let extraConfig := <[CloudInitGuestInfoUserdataEncoding K := "gzip+base64"]> extraConfig in
                Ok (finish extraConfig)
            end
        end
      else Ok (finish extraConfig)
  end.

(** Lines 166-183.  The loop copies the entries whose key has the
    prefix; the order in which Go visits the map does not show in the
    resulting map. *)
Definition GetExtraConfigCustSpec (config : ConfigInfo) (updateArgs : VMUpdateArgs)
    : option ConfigSpec :=
  let extraConfig : gmap string string :=
    filter (λ kv, strings.HasPrefix kv.1 (ExtraConfigGuestInfoPrefix K) = true)
           (Data (Metadata updateArgs)) in
  if decide (size extraConfig = 0) then None
  else Some {| VirtualMachineConfigSpec.ExtraConfig :=
                 MergeExtraConfig P (VirtualMachineConfigInfo.ExtraConfig config) extraConfig;
               VirtualMachineConfigSpec.VAppConfig := None;
               VirtualMachineConfigSpec.VAppConfigRemoved := None |}.

(** Lines 185-201. *)
Definition GetOvfEnvCustSpec (config : ConfigInfo) (updateArgs : VMUpdateArgs)
    : option ConfigSpec :=
  match VirtualMachineConfigInfo.VAppConfig config with
  | None => None
  | Some None => None
  | Some (Some vAppConfigInfo) =>
      Some {| VirtualMachineConfigSpec.ExtraConfig := [];
              VirtualMachineConfigSpec.VAppConfig :=
                GetMergedvAppConfigSpec P (Data (Metadata updateArgs))
                  (VirtualMachineConfigInfo.Property vAppConfigInfo);
              VirtualMachineConfigSpec.VAppConfigRemoved := None |}
  end.

(** Lines 203-238.  The Go function returns [(configSpec, custSpec,
    err)]; the calls made on the VM are returned with it. *)
Definition customizeCloudInit (vm : VirtualMachine) (resVM : ResVM P)
    (config : ConfigInfo) (updateArgs : VMUpdateArgs)
    : list (Call P) * (option ConfigSpec * option CustSpec * option error) :=
  match GetNetworkDevices resVM with
  | Err err => ([CallGetNetworkDevices], (None, None, Some err))
  | Ok ethCards =>
      let netplan := GetNetplan P (NetIfList updateArgs) ethCards (DNSServers updateArgs) in
      match GetCloudInitMetadata vm netplan (Data (Metadata updateArgs)) with
      | Err err => ([CallGetNetworkDevices], (None, None, Some err))
      | Ok cloudInitMetadata =>
          let annotation := index (Annotations vm) (CloudInitTypeAnnotation K) in
          let '(configSpec, custSpec, err) :=
            if String.eqb annotation (CloudInitTypeValueCloudInitPrep K) then
              match GetCloudInitPrepCustSpec cloudInitMetadata updateArgs with
              | Ok custSpec => (None, Some custSpec, None)
              | Err err => (None, None, Some err)
              end
            else
              match GetCloudInitGuestInfoCustSpec cloudInitMetadata config updateArgs with
              | Ok configSpec => (Some configSpec, None, None)
              | Err err => (None, None, Some err)
              end in
          match err with
          | Some err => ([CallGetNetworkDevices], (None, None, Some err))
          | None => ([CallGetNetworkDevices], (configSpec, custSpec, None))
          end
      end
  end.

(** Lines 324-373: the metadata templating. *)
Definition normalizeStr (str : string) : string :=
  if strings.Contains str "\{" || strings.Contains str "\}" then
    let str := strings.ReplaceAll str "\{" "{" in
    strings.ReplaceAll str "\}" "}"
  else str.

Definition renderTemplate (templateData : VirtualMachineTemplate)
    (name templateStr : string) : string :=
  match templateParseExecute P name templateStr templateData with
  | ParseError err => normalizeStr templateStr
  | ExecuteError err => normalizeStr templateStr
  | Rendered doc => normalizeStr doc
  end.

(** The Go function writes [data[key]] for every key of the map it
    ranges over; the result is the map after the loop. *)
Definition TemplateVMMetadata (vm : VirtualMachine) (updateArgs : VMUpdateArgs)
    : gmap string string :=
  let networkDevicesStatus := NicInfoToDevicesStatus updateArgs in
  let networkStatus :=
    {| Devices := networkDevicesStatus; Nameservers := DNSServers updateArgs |} in
  let templateData := {| Net := networkStatus; VM := vm |} in
  let data := Data (Metadata updateArgs) in
  map_imap (λ key val, Some (renderTemplate templateData key val)) data.

(** The arguments of the pass once the shared metadata map holds [data]. *)
Definition withData (updateArgs : VMUpdateArgs) (data : gmap string string) : VMUpdateArgs :=
  {| Metadata := {| Data := data; Transport := Transport (Metadata updateArgs) |};
     NetIfList := NetIfList updateArgs;
     DNSServers := DNSServers updateArgs |}.

(** Lines 250-267 of [customize]: the switch on the transport. *)
Definition transportSwitch (vm : VirtualMachine) (resVM : ResVM P)
    (config : ConfigInfo) (updateArgs : VMUpdateArgs)
    : list (Call P) * (option ConfigSpec * option CustSpec * option error) :=
  let transport := Transport (Metadata updateArgs) in
  if String.eqb transport v1alpha1.VirtualMachineMetadataCloudInitTransport then
    customizeCloudInit vm resVM config updateArgs
  else if String.eqb transport v1alpha1.VirtualMachineMetadataOvfEnvTransport then
    ([], (GetOvfEnvCustSpec config updateArgs,
          Some (GetLinuxPrepCustSpec (Name vm) updateArgs), None))
  else if String.eqb transport v1alpha1.VirtualMachineMetadataExtraConfigTransport then
    ([], (GetExtraConfigCustSpec config updateArgs,
          Some (GetLinuxPrepCustSpec (Name vm) updateArgs), None))
  else
    ([], (None, Some (GetLinuxPrepCustSpec (Name vm) updateArgs), None)).

(** [apiEquality.Semantic.DeepEqual(configSpec, defaultConfigSpec)]: two
    pointers are equal when both are nil or what they point to is equal,
    and an empty slice equals a nil one. *)
Definition DeepEqualDefault (configSpec : ConfigSpec) : bool :=
  match VirtualMachineConfigSpec.ExtraConfig configSpec,
        VirtualMachineConfigSpec.VAppConfig configSpec,
        VirtualMachineConfigSpec.VAppConfigRemoved configSpec with
  | [], None, None => true
  | _, _, _ => false
  end.

(** Lines 273-282 of [customize]. *)
Definition reconfigureStep (resVM : ResVM P) (configSpec : option ConfigSpec)
    : list (Call P) * option error :=
  match configSpec with
  | Some configSpec =>
      if negb (DeepEqualDefault configSpec) then
        ([CallReconfigure configSpec], Reconfigure resVM configSpec)
      else ([], None)
  | None => ([], None)
  end.

(** Lines 284-306 of [customize]. *)
Definition customizeStep (vm : VirtualMachine) (resVM : ResVM P)
    (config : ConfigInfo) (custSpec : option CustSpec)
    : list (Call P) * Completion :=
  match custSpec with
  | Some custSpec =>
      if String.eqb (index (Annotations vm) (VSphereCustomizationBypassKey K))
                    (VSphereCustomizationBypassDisable K)
      then ([], Returned None)
      else
        match IsCustomizationPendingExtraConfig (VirtualMachineConfigInfo.ExtraConfig config) with
        | None => ([], Panicked)
        | Some true => ([], Returned None)
        | Some false =>
            match Customize resVM custSpec with
            | Some err =>
                if negb (isCustomizationPendingError err)
                then ([CallCustomize custSpec], Returned (Some err))
                else ([CallCustomize custSpec], Returned None)
            | None => ([CallCustomize custSpec], Returned None)
            end
        end
  | None => ([], Returned None)
  end.

(** Lines 246-248 of [customize]: the metadata map after the templating,
    which runs only when the feature is enabled. *)
Definition passData (vm : VirtualMachine) (updateArgs : VMUpdateArgs) : gmap string string :=
  if IsVMServicePublicCloudBYOIFSSEnabled P
  then TemplateVMMetadata vm updateArgs
  else Data (Metadata updateArgs).

(** Lines 240-307.  [stored] is the metadata map, shared with the caller,
    as the pass leaves it. *)
Definition customize (vm : VirtualMachine) (resVM : ResVM P)
    (config : ConfigInfo) (updateArgs : VMUpdateArgs) : PassOutcome P :=
  let data := passData vm updateArgs in
  let updateArgs := withData updateArgs data in
  let '(calls1, (configSpec, custSpec, err)) := transportSwitch vm resVM config updateArgs in
  match err with
  | Some err => mkPassOutcome (Returned (Some err)) calls1 data
  | None =>
      match reconfigureStep resVM configSpec with
      | (calls2, Some err) => mkPassOutcome (Returned (Some err)) (calls1 ++ calls2) data
      | (calls2, None) =>
          let '(calls3, done) := customizeStep vm resVM config custSpec in
          mkPassOutcome done (calls1 ++ calls2 ++ calls3) data
      end
  end.

End session.

(** What the switch on the transport returns in a pass: it runs on the
    metadata as the templating left it. *)
Definition passSelection (P : Platform) (K : Constants) (vm : VirtualMachine) (resVM : ResVM P)
    (config : VirtualMachineConfigInfo.t P) (updateArgs : VMUpdateArgs)
    : option (VirtualMachineConfigSpec.t P) * option (CustomizationSpec.t P) * option error :=
  (transportSwitch P K vm resVM config (withData updateArgs (passData P vm updateArgs))).2.


(** The device status of one interface: the entry that the loop of
    [NicInfoToDevicesStatus] appends. *)
Definition deviceStatus (info : InterfaceInfo) : NetworkDeviceStatus :=
  {| Gateway4 := Gateway (IPConfiguration info);
     IPAddresses := [network.ToCidrNotation (IP (IPConfiguration info))
                       (SubnetMask (IPConfiguration info))] |}.

(** No option of the list is under the pending key. *)
Definition noPendingKey (K : Constants) (extraConfig : list BaseOptionValue) : Prop :=
  ∀ optValue, Some optValue ∈ extraConfig → Key optValue ≠ GOSCPendingExtraConfigKey K.

(** The string without the occurrences of a character. *)
Fixpoint withoutChar (c : ascii) (s : string) : string :=
  match s with
  | EmptyString => EmptyString
  | String d rest => if Ascii.eqb c d then withoutChar c rest else String d (withoutChar c rest)
  end.

(** Exactly one of two optional values is present. *)
Definition exactlyOneNonNil {A B : Type} (a : option A) (b : option B) : Prop :=
  (is_Some a ∧ b = None) ∨ (a = None ∧ is_Some b).

(** The entries of the metadata whose key has the guest-info prefix. *)
Definition guestInfoEntries (K : Constants) (data : gmap string string) : gmap string string :=
  filter (λ kv, strings.HasPrefix kv.1 (ExtraConfigGuestInfoPrefix K) = true) data.

(** ** A concrete platform, on which the model runs *)

Module fixture.

Definition constants : Constants :=
  {| GOSCPendingExtraConfigKey := "tools.deployPkg.fileName";
     ExtraConfigGuestInfoPrefix := "guestinfo.";
     CloudInitGuestInfoMetadata := "guestinfo.metadata";
     CloudInitGuestInfoMetadataEncoding := "guestinfo.metadata.encoding";
     CloudInitGuestInfoUserdata := "guestinfo.userdata";
     CloudInitGuestInfoUserdataEncoding := "guestinfo.userdata.encoding";
     CloudInitTypeAnnotation := "vmoperator.vmware.com/cloud-init-type";
     CloudInitTypeValueCloudInitPrep := "cloud-init-prep";
     CloudInitTypeValueGuestInfo := "guestinfo";
     VSphereCustomizationBypassKey := "vmoperator.vmware.com/vsphere-customization";
     VSphereCustomizationBypassDisable := "disable" |}.

(** Modelled from the spec: [MergeExtraConfig] is not among the sources.
    The updates override the matching keys and every other existing
    entry is kept. *)
Definition mergeExtraConfig (existing : list BaseOptionValue) (updates : gmap string string)
    : list BaseOptionValue :=
  let kept (opt : BaseOptionValue) : bool :=
    match opt with
    | Some optValue => bool_decide (updates !! Key optValue = None)
    | None => true
    end in
  (filter (λ opt, kept opt = true) existing
   ++ ((λ kv, Some (mkOptionValue kv.1 (AnyString kv.2))) <$> map_to_list updates))%list.

(** A stand-in for the codec, which is not among the sources: it
    satisfies the two laws of the spec, [decode (encode s) = s] and
    [decode s = s] on a string that is not encoded. *)
Definition encode (s : string) : string := "gzip+base64:" +:+ s.

Fixpoint stripPrefix (pre s : string) : option string :=
  match pre, s with
  | EmptyString, _ => Some s
  | String a pre, String b s => if Ascii.eqb a b then stripPrefix pre s else None
  | String _ _, EmptyString => None
  end.

Definition decode (s : string) : string := default s (stripPrefix "gzip+base64:" s).

(** Text without an action renders to itself; an action is not
    rendered by this stand-in for [text/template]. *)
Definition parseExecute (name templateStr : string) (data : VirtualMachineTemplate)
    : TemplateOutcome :=
  if strings.Contains templateStr "{{"
  then ParseError (ErrorString ("template: " +:+ name))
  else Rendered templateStr.

Definition platform (templating : bool) : Platform :=
  {| Netplan := list InterfaceInfo * list string;
     VirtualDeviceList := unit;
     CustomizationAdapterMapping := IPConfig;
     VAppPropertyInfo := string * string;
     VmConfigSpec := list (string * string);
     IsVMServicePublicCloudBYOIFSSEnabled := templating;
     TryToDecodeBase64Gzip := λ s, Ok (decode s);
     EncodeGzipBase64 := λ s, Ok (encode s);
     MergeExtraConfig := mergeExtraConfig;
     GetMergedvAppConfigSpec := λ data props,
       if decide (size data = 0) then None else Some (map_to_list data);
     GetNetplan := λ nics _ dns, (nics, dns);
     GetInterfaceCustomizations := λ nics, IPConfiguration <$> nics;
     yamlMarshal := λ m, Ok ("instance-id: " +:+ InstanceID _ m);
     templateParseExecute := parseExecute |}.

Definition vm : VirtualMachine :=
  {| Name := "vm-1"; UID := "uid-1"; Annotations := ∅ |}.

(** The same VM with the bypass annotation. *)
Definition vmBypass : VirtualMachine :=
  {| Name := "vm-1"; UID := "uid-1";
     Annotations := {[ VSphereCustomizationBypassKey constants :=
                         VSphereCustomizationBypassDisable constants ]} |}.

Definition nic : InterfaceInfo :=
  {| IPConfiguration := {| IP := "10.0.0.5"; SubnetMask := "255.255.255.0"; Gateway := "10.0.0.1" |} |}.

Definition args (transport : string) (data : gmap string string) : VMUpdateArgs :=
  {| Metadata := {| Data := data; Transport := transport |};
     NetIfList := [nic];
     DNSServers := ["8.8.8.8"] |}.

(** A live configuration without vApp configuration, and one with. *)
Definition config (templating : bool) (extraConfig : list BaseOptionValue)
    : VirtualMachineConfigInfo.t (platform templating) :=
  {| VirtualMachineConfigInfo.ExtraConfig := extraConfig;
     VirtualMachineConfigInfo.VAppConfig := None |}.

Definition configWithVApp : VirtualMachineConfigInfo.t (platform false) :=
  {| VirtualMachineConfigInfo.ExtraConfig := [];
     VirtualMachineConfigInfo.VAppConfig :=
       Some (Some (@VirtualMachineConfigInfo.mkVmConfigInfo (platform false) [("hostname", "")])) |}.

(** The pending marker in the extra configuration. *)
Definition pendingMarker : BaseOptionValue :=
  Some (mkOptionValue (GOSCPendingExtraConfigKey constants) (AnyString "imc.xml")).

(** A remote side on which every call succeeds, and three on which
    one call fails. *)
Definition healthy (templating : bool) : ResVM (platform templating) :=
  @mkResVM (platform templating) (Ok tt) (λ _, None) (λ _, None).

Definition devicesFail : ResVM (platform false) :=
  @mkResVM (platform false) (Err (ErrorString "no such device")) (λ _, None) (λ _, None).

Definition reconfigureFails : ResVM (platform false) :=
  @mkResVM (platform false) (Ok tt)
    (λ _, Some (TaskError InvalidPowerState "invalid power state")) (λ _, None).

Definition customizeFails (fault : MethodFault) : ResVM (platform false) :=
  @mkResVM (platform false) (Ok tt) (λ _, None)
    (λ _, Some (TaskError fault "customization failed")).

End fixture.


(** The option that holds the string [v] under the key [k]. *)
Definition stringOption (k v : string) : BaseOptionValue :=
  Some (mkOptionValue k (AnyString v)).

(** * Properties *)

(** ** Strings *)

(** Where [old] does not occur, [ReplaceAll] changes nothing. *)
Lemma replaceFrom_absent (old new s : string) :
  strings.Contains s old = false → strings.replaceFrom 0 s old new = s.
Proof.
  induction s as [|c s IH]; cbn [strings.Contains strings.replaceFrom]; [done|].
  intros H. apply orb_false_iff in H as [Hp Hc].
  rewrite Hp, IH; done.
Qed.

Lemma ReplaceAll_absent (old new s : string) :
  old ≠ "" → strings.Contains s old = false → strings.ReplaceAll s old new = s.
Proof.
  intros Hne H. destruct old; [done|]. by apply replaceFrom_absent.
Qed.

(** The occurrences that [ReplaceAll] replaces do not overlap. *)
Example ReplaceAll_no_overlap : strings.ReplaceAll "aaa" "aa" "b" = "ba".
Proof. reflexivity. Qed.

Example ReplaceAll_every_occurrence : strings.ReplaceAll "a.b.c" "." "::" = "a::b::c".
Proof. reflexivity. Qed.

Example Contains_inside : strings.Contains "hello \{world\}" "\}" = true.
Proof. reflexivity. Qed.

Example ToCidrNotation_16 : network.ToCidrNotation "192.168.3.7" "255.255.0.0" = "192.168.3.7/16".
Proof. by vm_compute. Qed.

(** The stand-in for the codec satisfies the round-trip law. *)
Lemma fixture_decode_encode (s : string) : fixture.decode (fixture.encode s) = s.
Proof. reflexivity. Qed.

Section properties.

Context (P : Platform) (K : Constants).

#[local] Abbreviation ConfigInfo := (VirtualMachineConfigInfo.t P).
#[local] Abbreviation ConfigSpec := (VirtualMachineConfigSpec.t P).
#[local] Abbreviation CustSpec := (CustomizationSpec.t P).

(** The conditional of [normalizeStr] is an optimisation: both
    replacements are applied to every string. *)
Lemma normalizeStr_ReplaceAll (str : string) :
  normalizeStr str = strings.ReplaceAll (strings.ReplaceAll str "\{" "{") "\}" "}".
Proof.
  unfold normalizeStr.
  destruct (strings.Contains str "\{") eqn:Hopen; [done|].
  destruct (strings.Contains str "\}") eqn:Hclose; [done|].
  cbn [orb].
  rewrite (ReplaceAll_absent "\{" "{" str) by done.
  by rewrite ReplaceAll_absent.
Qed.


(** The switch on the transport only looks up the network devices. *)
Lemma customizeCloudInit_calls vm resVM config updateArgs :
  (customizeCloudInit P K vm resVM config updateArgs).1 = [CallGetNetworkDevices].
Proof.
  unfold customizeCloudInit.
  destruct (GetNetworkDevices resVM); [|done].
  destruct (GetCloudInitMetadata _ _ _ _); [|done].
  destruct (String.eqb _ _).
  - destruct (GetCloudInitPrepCustSpec _ _ _); done.
  - destruct (GetCloudInitGuestInfoCustSpec _ _ _ _ _); done.
Qed.

Lemma transportSwitch_calls vm resVM config updateArgs (call : Call P) :
  call ∈ (transportSwitch P K vm resVM config updateArgs).1 → call = CallGetNetworkDevices.
Proof.
  unfold transportSwitch.
  destruct (String.eqb _ _).
  - rewrite customizeCloudInit_calls. by intros ->%list_elem_of_singleton.
  - repeat destruct (String.eqb _ _); cbn; by intros ?%elem_of_nil.
Qed.

(** When the selector reports an error it returns no spec. *)
Lemma customizeCloudInit_error vm resVM config updateArgs calls configSpec custSpec err :
  customizeCloudInit P K vm resVM config updateArgs = (calls, (configSpec, custSpec, Some err)) →
  configSpec = None ∧ custSpec = None.
Proof.
  unfold customizeCloudInit.
  destruct (GetNetworkDevices resVM); [|by intros [= <- <- <- <-]].
  destruct (GetCloudInitMetadata _ _ _ _); [|by intros [= <- <- <- <-]].
  destruct (String.eqb _ _).
  - destruct (GetCloudInitPrepCustSpec _ _ _); cbn; by intros [= <- <- <-].
  - destruct (GetCloudInitGuestInfoCustSpec _ _ _ _ _); cbn; by intros [= <- <- <-].
Qed.

(** The calls of the reconfiguration and of the customization step. *)
Lemma reconfigureStep_calls resVM configSpec (call : Call P) :
  call ∈ (reconfigureStep P resVM configSpec).1 →
  ∃ spec, call = CallReconfigure spec ∧ configSpec = Some spec ∧ DeepEqualDefault P spec = false.
Proof.
  unfold reconfigureStep. destruct configSpec as [spec|]; [|by intros ?%elem_of_nil].
  destruct (DeepEqualDefault P spec) eqn:Heq; cbn; [by intros ?%elem_of_nil|].
  intros ->%list_elem_of_singleton. by exists spec.
Qed.

Lemma customizeStep_calls vm resVM config custSpec (call : Call P) :
  call ∈ (customizeStep P K vm resVM config custSpec).1 →
  ∃ spec, call = CallCustomize spec ∧ custSpec = Some spec
    ∧ index (Annotations vm) (VSphereCustomizationBypassKey K) ≠ VSphereCustomizationBypassDisable K
    ∧ IsCustomizationPendingExtraConfig K (VirtualMachineConfigInfo.ExtraConfig config) = Some false.
Proof.
  unfold customizeStep. destruct custSpec as [spec|]; [|by intros ?%elem_of_nil].
  destruct (String.eqb_spec (index (Annotations vm) (VSphereCustomizationBypassKey K))
              (VSphereCustomizationBypassDisable K)) as [|Hbypass]; [by intros ?%elem_of_nil|].
  destruct (IsCustomizationPendingExtraConfig _ _) as [[]|]; try by intros ?%elem_of_nil.
  destruct (Customize resVM spec) as [err|]; [destruct (negb _)|];
    cbn; intros ->%list_elem_of_singleton; by exists spec.
Qed.

(** The pass stores the metadata as the templating left it. *)
Lemma customize_stored vm resVM config updateArgs :
  stored (customize P K vm resVM config updateArgs) = passData P vm updateArgs.
Proof.
  unfold customize.
  destruct (transportSwitch _ _ _ _ _ _) as [calls1 [[configSpec custSpec] [err|]]]; [done|].
  destruct (reconfigureStep _ _ _) as [calls2 [err|]]; [done|].
  by destruct (customizeStep _ _ _ _ _ _).
Qed.

(** ** The transport switch *)

Lemma guestInfoEntries_lookup (data : gmap string string) (k v : string) :
  guestInfoEntries K data !! k = Some v ↔
  data !! k = Some v ∧ strings.HasPrefix k (ExtraConfigGuestInfoPrefix K) = true.
Proof. unfold guestInfoEntries. by rewrite map_lookup_filter_Some. Qed.

Lemma GetExtraConfigCustSpec_eq config updateArgs :
  GetExtraConfigCustSpec P K config updateArgs =
  let updates := guestInfoEntries K (Data (Metadata updateArgs)) in
  if decide (updates = ∅) then None
  else Some {| VirtualMachineConfigSpec.ExtraConfig :=
                 MergeExtraConfig P (VirtualMachineConfigInfo.ExtraConfig config) updates;
               VirtualMachineConfigSpec.VAppConfig := None;
               VirtualMachineConfigSpec.VAppConfigRemoved := None |}.
Proof.
  unfold GetExtraConfigCustSpec, guestInfoEntries. cbn zeta.
  destruct (decide (size _ = 0)) as [Hz|Hnz].
  - apply map_size_empty_iff in Hz. by rewrite decide_True.
  - rewrite decide_False; [done|]. by rewrite <-map_size_empty_iff.
Qed.

Lemma transportSwitch_CloudInit vm resVM config updateArgs :
  Transport (Metadata updateArgs) = v1alpha1.VirtualMachineMetadataCloudInitTransport →
  transportSwitch P K vm resVM config updateArgs = customizeCloudInit P K vm resVM config updateArgs.
Proof. unfold transportSwitch. by intros ->. Qed.

Lemma transportSwitch_OvfEnv vm resVM config updateArgs :
  Transport (Metadata updateArgs) = v1alpha1.VirtualMachineMetadataOvfEnvTransport →
  transportSwitch P K vm resVM config updateArgs =
  ([], (GetOvfEnvCustSpec P config updateArgs,
        Some (GetLinuxPrepCustSpec P (Name vm) updateArgs), None)).
Proof. unfold transportSwitch. by intros ->. Qed.

Lemma transportSwitch_ExtraConfig vm resVM config updateArgs :
  Transport (Metadata updateArgs) = v1alpha1.VirtualMachineMetadataExtraConfigTransport →
  transportSwitch P K vm resVM config updateArgs =
  ([], (GetExtraConfigCustSpec P K config updateArgs,
        Some (GetLinuxPrepCustSpec P (Name vm) updateArgs), None)).
Proof. unfold transportSwitch. by intros ->. Qed.

Lemma transportSwitch_default vm resVM config updateArgs :
  Transport (Metadata updateArgs) ≠ v1alpha1.VirtualMachineMetadataCloudInitTransport →
  Transport (Metadata updateArgs) ≠ v1alpha1.VirtualMachineMetadataOvfEnvTransport →
  Transport (Metadata updateArgs) ≠ v1alpha1.VirtualMachineMetadataExtraConfigTransport →
  transportSwitch P K vm resVM config updateArgs =
  ([], (None, Some (GetLinuxPrepCustSpec P (Name vm) updateArgs), None)).
Proof.
  unfold transportSwitch. intros H1 H2 H3.
  apply String.eqb_neq in H1, H2, H3. by rewrite H1, H2, H3.
Qed.

Lemma customizeCloudInit_exactly_one vm resVM config updateArgs calls configSpec custSpec :
  customizeCloudInit P K vm resVM config updateArgs = (calls, (configSpec, custSpec, None)) →
  exactlyOneNonNil configSpec custSpec.
Proof.
  unfold customizeCloudInit, exactlyOneNonNil.
  destruct (GetNetworkDevices resVM); [|done].
  destruct (GetCloudInitMetadata _ _ _ _); [|done].
  destruct (String.eqb _ _).
  - destruct (GetCloudInitPrepCustSpec _ _ _); cbn; intros [= <- <- <-]; eauto.
  - destruct (GetCloudInitGuestInfoCustSpec _ _ _ _ _); cbn; intros [= <- <- <-]; eauto.
Qed.

(** C1, as amended.  The switch on the transport returns no spec when
    it returns an error.  Otherwise: for CloudInit exactly one of the
    configuration spec and the customization spec is non-nil; for every
    other transport the customization spec is the Linux-prep one, and
    the configuration spec is non-nil as well exactly when, for OvfEnv,
    the live configuration has a vApp configuration and when, for
    ExtraConfig, some metadata key has the guest-info prefix; for an
    unset or unknown transport the configuration spec is nil. *)
Theorem transportSwitch_specs vm resVM config updateArgs :
  let '(_, (configSpec, custSpec, err)) := transportSwitch P K vm resVM config updateArgs in
  let transport := Transport (Metadata updateArgs) in
  match err with
  | Some _ => configSpec = None ∧ custSpec = None
  | None =>
      if decide (transport = v1alpha1.VirtualMachineMetadataCloudInitTransport) then
        exactlyOneNonNil configSpec custSpec
      else
        custSpec = Some (GetLinuxPrepCustSpec P (Name vm) updateArgs) ∧
        if decide (transport = v1alpha1.VirtualMachineMetadataOvfEnvTransport) then
          is_Some configSpec ↔
          ∃ info, VirtualMachineConfigInfo.VAppConfig config = Some (Some info)
        else if decide (transport = v1alpha1.VirtualMachineMetadataExtraConfigTransport) then
          is_Some configSpec ↔
          ∃ k v, Data (Metadata updateArgs) !! k = Some v
                 ∧ strings.HasPrefix k (ExtraConfigGuestInfoPrefix K) = true
        else configSpec = None
  end.
Proof.
  destruct (transportSwitch _ _ _ _ _ _) as [calls [[configSpec custSpec] err]] eqn:Hsw.
  cbn zeta.
  destruct (decide (_ = v1alpha1.VirtualMachineMetadataCloudInitTransport)) as [Hci|Hci].
  { rewrite transportSwitch_CloudInit in Hsw by done.
    destruct err as [err|]; [by eapply customizeCloudInit_error|].
    by eapply customizeCloudInit_exactly_one. }
  destruct (decide (_ = v1alpha1.VirtualMachineMetadataOvfEnvTransport)) as [Hovf|Hovf].
  { rewrite transportSwitch_OvfEnv in Hsw by done. injection Hsw as <- <- <- <-.
    split; [done|]. unfold GetOvfEnvCustSpec.
    destruct (VirtualMachineConfigInfo.VAppConfig config) as [[info|]|].
    - split; eauto.
    - split; [by intros [? ?]|by intros [? ?]].
    - split; [by intros [? ?]|by intros [? ?]]. }
  destruct (decide (_ = v1alpha1.VirtualMachineMetadataExtraConfigTransport)) as [Hec|Hec].
  { rewrite transportSwitch_ExtraConfig in Hsw by done. injection Hsw as <- <- <- <-.
    split; [done|]. rewrite GetExtraConfigCustSpec_eq. cbn zeta.
    destruct (decide (_ = ∅)) as [Hempty|Hne].
    - split; [by intros [? ?]|]. intros (k & v & Hk & Hpre).
      assert (guestInfoEntries K (Data (Metadata updateArgs)) !! k = Some v) as Hin
        by by apply guestInfoEntries_lookup.
      by rewrite Hempty in Hin.
    - split; [|by eauto]. intros _.
      apply map_choose in Hne as (k & v & Hk).
      apply guestInfoEntries_lookup in Hk as [Hk Hpre]. eauto. }
  rewrite transportSwitch_default in Hsw by done. by injection Hsw as <- <- <- <-.
Qed.


(** ** The pass *)

(** The three ways in which [customize] ends, after the switch. *)
Lemma customize_cases vm resVM config updateArgs :
  let out := customize P K vm resVM config updateArgs in
  let calls1 := (transportSwitch P K vm resVM config
                   (withData updateArgs (passData P vm updateArgs))).1 in
  let '(configSpec, custSpec, err) := passSelection P K vm resVM config updateArgs in
  match err with
  | Some err => completion out = Returned (Some err) ∧ calls out = calls1
  | None =>
      let '(calls2, err) := reconfigureStep P resVM configSpec in
      match err with
      | Some err => completion out = Returned (Some err) ∧ calls out = calls1 ++ calls2
      | None =>
          let '(calls3, done) := customizeStep P K vm resVM config custSpec in
          completion out = done ∧ calls out = calls1 ++ calls2 ++ calls3
      end
  end.
Proof.
  unfold customize, passSelection.
  destruct (transportSwitch _ _ _ _ _ _) as [calls1 [[configSpec custSpec] [err|]]]; cbn; [done|].
  destruct (reconfigureStep _ _ _) as [calls2 [err|]]; cbn; [done|].
  by destruct (customizeStep _ _ _ _ _ _) as [calls3 done].
Qed.

(** Brings the cases of the pass on [vm], [resVM], [config] and
    [updateArgs] into the context, as [H]. *)
Ltac pass_cases vm resVM config updateArgs H :=
  pose proof (customize_cases vm resVM config updateArgs) as H;
  cbn zeta in H;
  try match goal with out := customize _ _ _ _ _ _ |- _ => fold out in H end.

(** The calls of a pass, and what led to each of them. *)
Lemma customize_calls_inv vm resVM config updateArgs (call : Call P) :
  call ∈ calls (customize P K vm resVM config updateArgs) →
  match call with
  | CallGetNetworkDevices => True
  | CallReconfigure spec =>
      ∃ custSpec, passSelection P K vm resVM config updateArgs = (Some spec, custSpec, None)
        ∧ DeepEqualDefault P spec = false
  | CallCustomize spec =>
      ∃ configSpec, passSelection P K vm resVM config updateArgs = (configSpec, Some spec, None)
        ∧ (reconfigureStep P resVM configSpec).2 = None
        ∧ index (Annotations vm) (VSphereCustomizationBypassKey K) ≠ VSphereCustomizationBypassDisable K
        ∧ IsCustomizationPendingExtraConfig K (VirtualMachineConfigInfo.ExtraConfig config) = Some false
  end.
Proof.
  pass_cases vm resVM config updateArgs Hcases.
  pose proof (transportSwitch_calls vm resVM config
                (withData updateArgs (passData P vm updateArgs)) call) as Hsw.
  destruct (passSelection _ _ _ _ _ _) as [[configSpec custSpec] [err|]].
  { destruct Hcases as (_ & ->). by intros ->%Hsw. }
  pose proof (reconfigureStep_calls resVM configSpec call) as Hre.
  destruct (reconfigureStep _ _ _) as [calls2 [err|]] eqn:Hstep.
  { destruct Hcases as (_ & ->). rewrite elem_of_app.
    intros [->%Hsw|Hin]; [done|].
    destruct (Hre Hin) as (spec & -> & -> & Hne). eauto. }
  pose proof (customizeStep_calls vm resVM config custSpec call) as Hcu.
  destruct (customizeStep _ _ _ _ _ _) as [calls3 done].
  destruct Hcases as (_ & ->). rewrite !elem_of_app.
  intros [->%Hsw|[Hin|Hin]]; [done| |].
  - destruct (Hre Hin) as (spec & -> & -> & Hne). eauto.
  - destruct (Hcu Hin) as (spec & -> & -> & Hbypass & Hpending).
    exists configSpec. by rewrite Hstep.
Qed.


(** The guard reads the first option under the pending key. *)
Lemma IsCustomizationPendingExtraConfig_first (pre post : list BaseOptionValue) (value : AnyValue) :
  (∀ optValue, Some optValue ∈ pre → Key optValue ≠ GOSCPendingExtraConfigKey K) →
  IsCustomizationPendingExtraConfig K
    (pre ++ Some (mkOptionValue (GOSCPendingExtraConfigKey K) value) :: post) =
  match value with
  | AnyString s => Some (nonEmpty s)
  | _ => None
  end.
Proof.
  induction pre as [|[optValue|] pre IH]; intros Hpre; cbn.
  - by rewrite String.eqb_refl.
  - rewrite (proj2 (String.eqb_neq _ _)) by (apply Hpre; set_solver).
    apply IH. intros o Ho. apply Hpre. set_solver.
  - apply IH. intros o Ho. apply Hpre. set_solver.
Qed.

Lemma nonEmpty_true (s : string) : s ≠ "" → nonEmpty s = true.
Proof. unfold nonEmpty. by intros ->%String.eqb_neq. Qed.

Lemma reconfigureStep_error resVM configSpec calls2 err :
  reconfigureStep P resVM configSpec = (calls2, Some err) →
  ∃ spec, calls2 = [CallReconfigure spec] ∧ Reconfigure resVM spec = Some err.
Proof.
  unfold reconfigureStep. destruct configSpec as [spec|]; [|done].
  destruct (DeepEqualDefault P spec); cbn; [done|].
  intros [= <- Herr]. eauto.
Qed.

(** How a pass ends when its customization step returns nil: with
    success, or with the error of the switch or of the reconfiguration. *)
Lemma customize_completion_skipped vm resVM config updateArgs :
  (∀ custSpec, (customizeStep P K vm resVM config custSpec).2 = Returned None) →
  let out := customize P K vm resVM config updateArgs in
  completion out = Returned None ∨
  ∃ err, completion out = Returned (Some err) ∧
    ((passSelection P K vm resVM config updateArgs).2 = Some err ∨
     ∃ spec, CallReconfigure spec ∈ calls out ∧ Reconfigure resVM spec = Some err).
Proof.
  intros Hskip out.
  pass_cases vm resVM config updateArgs Hcases.
  destruct (passSelection _ _ _ _ _ _) as [[configSpec custSpec] [err|]].
  { destruct Hcases as (Hdone & _). right. exists err. eauto. }
  destruct (reconfigureStep _ _ _) as [calls2 [err|]] eqn:Hstep.
  { destruct Hcases as (Hdone & ->). right. exists err. split; [done|]. right.
    apply reconfigureStep_error in Hstep as (spec & -> & Herr).
    exists spec. split; [set_solver|done]. }
  specialize (Hskip custSpec).
  destruct (customizeStep _ _ _ _ _ _) as [calls3 done]. cbn in Hskip. subst done.
  left. by destruct Hcases as (Hdone & _).
Qed.

(** C3, as amended.  When the first option under the pending key in the
    extra configuration of the live VM holds a non-empty string, no
    pass calls Customize, whatever the transport; and the pass returns
    nil unless the switch on the transport or the reconfiguration
    failed, whose error it then returns. *)
Theorem pending_marker_skips_customize vm resVM config updateArgs pre post value :
  VirtualMachineConfigInfo.ExtraConfig config =
    pre ++ Some (mkOptionValue (GOSCPendingExtraConfigKey K) (AnyString value)) :: post →
  value ≠ "" →
  (∀ optValue, Some optValue ∈ pre → Key optValue ≠ GOSCPendingExtraConfigKey K) →
  let out := customize P K vm resVM config updateArgs in
  (∀ custSpec, CallCustomize custSpec ∉ calls out) ∧
  (completion out = Returned None ∨
   ∃ err, completion out = Returned (Some err) ∧
     ((passSelection P K vm resVM config updateArgs).2 = Some err ∨
      ∃ spec, CallReconfigure spec ∈ calls out ∧ Reconfigure resVM spec = Some err)).
Proof.
  intros Hconfig Hvalue Hfirst out.
  assert (IsCustomizationPendingExtraConfig K (VirtualMachineConfigInfo.ExtraConfig config)
          = Some true) as Hpending.
  { rewrite Hconfig, IsCustomizationPendingExtraConfig_first by done.
    by rewrite nonEmpty_true. }
  split.
  - intros custSpec Hin.
    apply customize_calls_inv in Hin as (configSpec & _ & _ & _ & Hnot).
    by rewrite Hpending in Hnot.
  - apply customize_completion_skipped. intros custSpec.
    unfold customizeStep. rewrite Hpending.
    destruct custSpec; [|done]. by destruct (String.eqb _ _).
Qed.

(** C8, as amended.  When the VM carries the bypass annotation with the
    disable value and the switch on the transport produced a
    customization spec, the pass does not call Customize, whatever the
    transport; and it returns nil unless the reconfiguration was called
    and failed, whose error it then returns. *)
Theorem bypass_annotation_skips_customize vm resVM config updateArgs configSpec custSpec :
  index (Annotations vm) (VSphereCustomizationBypassKey K) = VSphereCustomizationBypassDisable K →
  passSelection P K vm resVM config updateArgs = (configSpec, Some custSpec, None) →
  let out := customize P K vm resVM config updateArgs in
  (∀ custSpec, CallCustomize custSpec ∉ calls out) ∧
  (completion out = Returned None ∨
   ∃ err spec, completion out = Returned (Some err) ∧ configSpec = Some spec ∧
     CallReconfigure spec ∈ calls out ∧ Reconfigure resVM spec = Some err).
Proof.
  intros Hbypass Hsel out. split.
  - intros spec Hin.
    by apply customize_calls_inv in Hin as (? & _ & _ & Hnot & _).
  - destruct (customize_completion_skipped vm resVM config updateArgs)
      as [Hok|(err & Hdone & [Herr|(spec & Hin & Herr)])].
    + intros spec. unfold customizeStep. rewrite Hbypass, String.eqb_refl. by destruct spec.
    + by left.
    + by rewrite Hsel in Herr.
    + right. exists err, spec. repeat split; try done.
      apply customize_calls_inv in Hin as (? & Hsel' & _).
      rewrite Hsel in Hsel'. by injection Hsel' as ->.
Qed.

(** C4.  When a pass calls Customize and the call fails, the pass
    returns nil if the error is a task error whose fault is
    CustomizationPending, and returns the error of the call otherwise;
    so it returns nil exactly for that fault. *)
Theorem customize_error_handling vm resVM config updateArgs custSpec err :
  let out := customize P K vm resVM config updateArgs in
  CallCustomize custSpec ∈ calls out →
  Customize resVM custSpec = Some err →
  completion out = Returned (if isCustomizationPendingError err then None else Some err)
  ∧ (isCustomizationPendingError err = true ↔ ∃ msg, err = TaskError CustomizationPending msg)
  ∧ (completion out = Returned None ↔ ∃ msg, err = TaskError CustomizationPending msg).
Proof.
  intros out Hin Herr.
  assert (isCustomizationPendingError err = true ↔ ∃ msg, err = TaskError CustomizationPending msg)
    as Hkind.
  { destruct err as [[] msg|msg]; cbn; split; try done; try (by intros [? ?]); eauto. }
  assert (completion out = Returned (if isCustomizationPendingError err then None else Some err))
    as Hdone.
  { apply customize_calls_inv in Hin as (configSpec & Hsel & Hre & Hbypass & Hpending).
    pass_cases vm resVM config updateArgs Hcases. rewrite Hsel in Hcases.
    destruct (reconfigureStep _ _ _) as [calls2 err']. cbn in Hre. subst err'.
    unfold customizeStep in Hcases.
    rewrite (proj2 (String.eqb_neq _ _) Hbypass), Hpending, Herr in Hcases.
    destruct (isCustomizationPendingError err); cbn in Hcases; by destruct Hcases as (-> & _). }
  split; [done|]. split; [done|].
  rewrite Hdone, <-Hkind. by destruct (isCustomizationPendingError err).
Qed.

(** C10.  With the OvfEnv transport and a live configuration without
    vApp configuration, the switch returns a nil configuration spec and
    the Linux-prep customization spec; the pass does not call
    Reconfigure, and it ends as its customization step does on that
    spec. *)
Theorem ovfenv_without_vapp_config vm resVM config updateArgs :
  Transport (Metadata updateArgs) = v1alpha1.VirtualMachineMetadataOvfEnvTransport →
  (VirtualMachineConfigInfo.VAppConfig config = None
   ∨ VirtualMachineConfigInfo.VAppConfig config = Some None) →
  let out := customize P K vm resVM config updateArgs in
  let custSpec := GetLinuxPrepCustSpec P (Name vm) updateArgs in
  passSelection P K vm resVM config updateArgs = (None, Some custSpec, None)
  ∧ (∀ spec, CallReconfigure spec ∉ calls out)
  ∧ (calls out, completion out) = customizeStep P K vm resVM config (Some custSpec).
Proof.
  intros Htransport Hvapp out custSpec.
  assert (passSelection P K vm resVM config updateArgs = (None, Some custSpec, None)) as Hsel.
  { unfold passSelection. rewrite transportSwitch_OvfEnv by done. cbn.
    unfold GetOvfEnvCustSpec. by destruct Hvapp as [-> | ->]. }
  split; [done|]. split.
  - intros spec Hin. apply customize_calls_inv in Hin as (? & Hsel' & _).
    by rewrite Hsel in Hsel'.
  - pass_cases vm resVM config updateArgs Hcases. rewrite Hsel in Hcases.
    rewrite transportSwitch_OvfEnv in Hcases by done.
    cbn [reconfigureStep fst app] in Hcases.
    destruct (customizeStep _ _ _ _ _ _) as [calls3 done].
    by destruct Hcases as (-> & ->).
Qed.

(** ** Idempotence *)



(** The CloudInit transport asks for the removal of the vApp
    configuration in every configuration spec that it builds. *)
Lemma customizeCloudInit_removes_vapp vm resVM config updateArgs calls spec custSpec err :
  customizeCloudInit P K vm resVM config updateArgs = (calls, (Some spec, custSpec, err)) →
  VirtualMachineConfigSpec.VAppConfigRemoved spec = Some true.
Proof.
  unfold customizeCloudInit.
  destruct (GetNetworkDevices resVM); [|done].
  destruct (GetCloudInitMetadata _ _ _ _); [|done].
  destruct (String.eqb _ _).
  { destruct (GetCloudInitPrepCustSpec _ _ _); cbn; by intros [=]. }
  destruct (GetCloudInitGuestInfoCustSpec _ _ _ _ _) as [spec'|] eqn:Hspec; cbn; [|by intros [=]].
  intros [= <- -> <- <-]. revert Hspec. unfold GetCloudInitGuestInfoCustSpec.
  destruct (EncodeGzipBase64 P _); [|done].
  destruct (nonEmpty _); [|by intros [= <-]].
  destruct (TryToDecodeBase64Gzip P _); [|done].
  destruct (EncodeGzipBase64 P _); [|done]. by intros [= <-].
Qed.

(** ** Templating *)

(** C2, as amended.  When the feature is enabled, the pass stores for
    every metadata key the normalized rendering of its value: of the
    value itself when the template does not parse or does not execute,
    of the rendered text otherwise; normalizing replaces, from left to
    right, the occurrences of the escaped braces by braces, so that
    "hello \{world\}" becomes "hello {world}".  When the feature is
    disabled the metadata is stored unchanged. *)
Theorem templating_stores_normalized vm resVM config updateArgs :
  let out := customize P K vm resVM config updateArgs in
  let templateData :=
    {| Net := {| Devices := NicInfoToDevicesStatus updateArgs;
                 Nameservers := DNSServers updateArgs |};
       VM := vm |} in
  (if IsVMServicePublicCloudBYOIFSSEnabled P then
     ∀ key, stored out !! key =
       (λ val, normalizeStr match templateParseExecute P key val templateData with
                            | ParseError _ | ExecuteError _ => val
                            | Rendered doc => doc
                            end) <$> Data (Metadata updateArgs) !! key
   else stored out = Data (Metadata updateArgs))
  ∧ (∀ str, normalizeStr str = strings.ReplaceAll (strings.ReplaceAll str "\{" "{") "\}" "}")
  ∧ normalizeStr "hello \{world\}" = "hello {world}".
Proof.
  intros out templateData. split; [|split; [apply normalizeStr_ReplaceAll|done]].
  unfold out. rewrite customize_stored. unfold passData. destruct (IsVMServicePublicCloudBYOIFSSEnabled P); [|done].
  intros key. unfold TemplateVMMetadata. rewrite map_lookup_imap.
  destruct (Data (Metadata updateArgs) !! key) as [val|]; [|done].
  cbn. unfold renderTemplate. fold templateData.
  by destruct (templateParseExecute P key val templateData).
Qed.

(** ** The guest-info flavour of CloudInit *)

Lemma lookupUserdata_eq (data : gmap string string) :
  lookupUserdata data =
  if nonEmpty (index data "user-data") then index data "user-data" else index data "value".
Proof.
  unfold lookupUserdata. destruct (nonEmpty (index data "user-data")); [done|].
  destruct (nonEmpty (index data "value")) eqn:Hvalue; [done|].
  unfold nonEmpty in Hvalue. apply negb_false_iff, String.eqb_eq in Hvalue. by rewrite Hvalue.
Qed.

Lemma constants_wf_keys :
  constants_wf K = true →
  NoDup [CloudInitGuestInfoMetadata K; CloudInitGuestInfoMetadataEncoding K;
         CloudInitGuestInfoUserdata K; CloudInitGuestInfoUserdataEncoding K]
  ∧ CloudInitTypeValueCloudInitPrep K ≠ CloudInitTypeValueGuestInfo K
  ∧ CloudInitTypeValueCloudInitPrep K ≠ "".
Proof.
  unfold constants_wf. intros [Hkeys Hcases]%andb_true_iff.
  apply bool_decide_eq_true in Hkeys, Hcases. split; [done|].
  apply NoDup_cons in Hcases as [Hprep _]. set_solver.
Qed.

(** The updates that the guest-info flavour of CloudInit hands to
    [MergeExtraConfig], when the lookup of the network devices, the
    marshalling and the codec succeed. *)
Lemma cloudinit_guestinfo_updates vm resVM config updateArgs ethCards
    cloudInitMetadata encodedMetadata :
  constants_wf K = true →
  Transport (Metadata updateArgs) = v1alpha1.VirtualMachineMetadataCloudInitTransport →
  (index (Annotations vm) (CloudInitTypeAnnotation K) = ""
   ∨ index (Annotations vm) (CloudInitTypeAnnotation K) = CloudInitTypeValueGuestInfo K) →
  GetNetworkDevices resVM = Ok ethCards →
  GetCloudInitMetadata P vm
    (GetNetplan P (NetIfList updateArgs) ethCards (DNSServers updateArgs))
    (Data (Metadata updateArgs)) = Ok cloudInitMetadata →
  EncodeGzipBase64 P cloudInitMetadata = Ok encodedMetadata →
  let data := Data (Metadata updateArgs) in
  let userdata :=
    if nonEmpty (index data "user-data") then index data "user-data" else index data "value" in
  let selected (updates : gmap string string) :=
    transportSwitch P K vm resVM config updateArgs =
      ([CallGetNetworkDevices],
       (Some {| VirtualMachineConfigSpec.ExtraConfig :=
                  MergeExtraConfig P (VirtualMachineConfigInfo.ExtraConfig config) updates;
                VirtualMachineConfigSpec.VAppConfig := None;
                VirtualMachineConfigSpec.VAppConfigRemoved := Some true |},
        None, None))
    ∧ updates !! CloudInitGuestInfoMetadata K = Some encodedMetadata
    ∧ updates !! CloudInitGuestInfoMetadataEncoding K = Some "gzip+base64" in
  (index data "user-data" = "" → index data "value" = "" →
   ∃ updates, selected updates
     ∧ updates !! CloudInitGuestInfoUserdata K = None
     ∧ updates !! CloudInitGuestInfoUserdataEncoding K = None
     ∧ dom updates = {[CloudInitGuestInfoMetadata K; CloudInitGuestInfoMetadataEncoding K]})
  ∧ (∀ plainText encodedUserdata,
       userdata ≠ "" →
       TryToDecodeBase64Gzip P userdata = Ok plainText →
       EncodeGzipBase64 P plainText = Ok encodedUserdata →
       ∃ updates, selected updates
         ∧ updates !! CloudInitGuestInfoUserdata K = Some encodedUserdata
         ∧ updates !! CloudInitGuestInfoUserdataEncoding K = Some "gzip+base64").
Proof.
  intros (Hkeys & Hne & Hprep)%constants_wf_keys Htransport Hannotation Hdevices Hmetadata
    Hencoded data userdata selected.
  assert (String.eqb (index (Annotations vm) (CloudInitTypeAnnotation K))
            (CloudInitTypeValueCloudInitPrep K) = false) as Hcase.
  { apply String.eqb_neq. by destruct Hannotation as [-> | ->]. }
  clear Hannotation.
  apply NoDup_cons in Hkeys as [Hm Hkeys]. apply NoDup_cons in Hkeys as [Hme Hkeys].
  apply NoDup_cons in Hkeys as [Hu _].
  assert (CloudInitGuestInfoMetadata K ≠ CloudInitGuestInfoMetadataEncoding K
          ∧ CloudInitGuestInfoMetadata K ≠ CloudInitGuestInfoUserdata K
          ∧ CloudInitGuestInfoMetadata K ≠ CloudInitGuestInfoUserdataEncoding K)
    as (Hm1 & Hm2 & Hm3) by set_solver.
  assert (CloudInitGuestInfoMetadataEncoding K ≠ CloudInitGuestInfoUserdata K
          ∧ CloudInitGuestInfoMetadataEncoding K ≠ CloudInitGuestInfoUserdataEncoding K)
    as (Hme1 & Hme2) by set_solver.
  assert (CloudInitGuestInfoUserdata K ≠ CloudInitGuestInfoUserdataEncoding K)
    as Hu1 by set_solver.
  assert (transportSwitch P K vm resVM config updateArgs =
            match GetCloudInitGuestInfoCustSpec P K cloudInitMetadata config updateArgs with
            | Ok configSpec => ([CallGetNetworkDevices], (Some configSpec, None, None))
            | Err err => ([CallGetNetworkDevices], (None, None, Some err))
            end) as Hsw.
  { rewrite transportSwitch_CloudInit by done. unfold customizeCloudInit.
    rewrite Hdevices, Hmetadata, Hcase.
    by destruct (GetCloudInitGuestInfoCustSpec _ _ _ _ _). }
  unfold selected. rewrite Hsw. unfold GetCloudInitGuestInfoCustSpec.
  rewrite Hencoded, lookupUserdata_eq. fold data userdata. split.
  - intros Hud Hvalue.
    assert (userdata = "") as -> by (unfold userdata; by rewrite Hud, Hvalue).
    cbn [nonEmpty String.eqb negb]. eexists. split; [split; [done|]|].
    + by simplify_map_eq.
    + split; [by simplify_map_eq|]. split; [by simplify_map_eq|].
      by rewrite !dom_insert_L, dom_empty_L, (right_id_L ∅ (∪)), (comm_L (∪)).
  - intros plainText encodedUserdata Hud Hdecode Hencode.
    rewrite nonEmpty_true, Hdecode, Hencode by done.
    eexists. split; [split; [done|]|]; by simplify_map_eq.
Qed.

(** ** Network device status *)

Lemma devices_foldl (nics : list InterfaceInfo) (acc : list NetworkDeviceStatus) :
  foldl (λ networkDevicesStatus info, networkDevicesStatus ++ [deviceStatus info]) acc nics
  = acc ++ (deviceStatus <$> nics).
Proof.
  revert acc. induction nics as [|info nics IH]; intros acc; cbn [foldl fmap list_fmap].
  - by rewrite app_nil_r.
  - rewrite IH. by rewrite <-app_assoc.
Qed.

Lemma NicInfoToDevicesStatus_map (updateArgs : VMUpdateArgs) :
  NicInfoToDevicesStatus updateArgs = deviceStatus <$> NetIfList updateArgs.
Proof. unfold NicInfoToDevicesStatus. apply (devices_foldl _ []). Qed.

(** C9.  The status list has one entry for each interface of the
    arguments, in the order of the arguments, whatever the DNS servers:
    the entry of an interface has its gateway as [Gateway4] and, as
    [IPAddresses], the one address [ip/prefixlen], where the prefix
    length is the number of bits set in the subnet mask.  For the
    interface 10.0.0.5, 255.255.255.0, 10.0.0.1 the entry has the
    gateway 10.0.0.1 and the address 10.0.0.5/24. *)
Theorem NicInfoToDevicesStatus_entries (metadata : VMMetadata) (nics : list InterfaceInfo)
    (dns : list string) :
  let status := NicInfoToDevicesStatus (mkVMUpdateArgs metadata nics dns) in
  length status = length nics
  ∧ (∀ i, status !! i =
       (λ info,
          let ipConfig := IPConfiguration info in
          {| Gateway4 := Gateway ipConfig;
             IPAddresses :=
               [IP ipConfig +:+ "/" +:+
                NilZero.string_of_uint (Nat.to_uint (network.maskBits (SubnetMask ipConfig)))] |})
       <$> nics !! i)
  ∧ network.maskBits "255.255.255.0" = 24
  ∧ NicInfoToDevicesStatus
      (mkVMUpdateArgs metadata
         [mkInterfaceInfo (mkIPConfig "10.0.0.5" "255.255.255.0" "10.0.0.1")] ["8.8.8.8"])
    = [ {| Gateway4 := "10.0.0.1"; IPAddresses := ["10.0.0.5/24"] |} ].
Proof.
  intros status. unfold status. rewrite NicInfoToDevicesStatus_map. cbn [NetIfList].
  split; [by rewrite length_fmap|]. split; [|split].
  - intros i. by rewrite list_lookup_fmap.
  - by vm_compute.
  - by vm_compute.
Qed.

End properties.

(** * Further properties of the pass *)

Section pass_properties.

Context (P : Platform) (K : Constants).

#[local] Abbreviation ConfigInfo := (VirtualMachineConfigInfo.t P).
#[local] Abbreviation ConfigSpec := (VirtualMachineConfigSpec.t P).
#[local] Abbreviation CustSpec := (CustomizationSpec.t P).

(** The selection and the steps of the pass on [vm], [resVM], [config]
    and [updateArgs], case by case. *)
Ltac pass_split vm resVM config updateArgs H :=
  pose proof (customize_cases P K vm resVM config updateArgs) as H;
  cbn zeta in H;
  try match goal with out := customize _ _ _ _ _ _ |- _ => fold out in H end.

Lemma transportSwitch_calls_eq vm resVM config updateArgs :
  (transportSwitch P K vm resVM config updateArgs).1 =
  if String.eqb (Transport (Metadata updateArgs)) v1alpha1.VirtualMachineMetadataCloudInitTransport
  then [CallGetNetworkDevices] else [].
Proof.
  unfold transportSwitch. destruct (String.eqb _ _).
  - apply customizeCloudInit_calls.
  - by repeat destruct (String.eqb _ _).
Qed.

Lemma reconfigureStep_shape resVM (configSpec : option ConfigSpec) :
  reconfigureStep P resVM configSpec = ([], None)
  ∨ ∃ spec, configSpec = Some spec ∧ DeepEqualDefault P spec = false
      ∧ reconfigureStep P resVM configSpec = ([CallReconfigure spec], Reconfigure resVM spec).
Proof.
  unfold reconfigureStep. destruct configSpec as [spec|]; [|by left].
  destruct (DeepEqualDefault P spec) eqn:Heq; [by left|]. right. by exists spec.
Qed.

Lemma customizeStep_shape vm resVM config (custSpec : option CustSpec) :
  (customizeStep P K vm resVM config custSpec).1 = []
  ∨ ∃ spec, custSpec = Some spec ∧ (customizeStep P K vm resVM config custSpec).1 = [CallCustomize spec].
Proof.
  unfold customizeStep. destruct custSpec as [spec|]; [|by left].
  destruct (String.eqb _ _); [by left|].
  destruct (IsCustomizationPendingExtraConfig _ _) as [[]|]; try by left.
  right. exists spec. split; [done|].
  destruct (Customize resVM spec); [destruct (negb _)|]; done.
Qed.

(** X1.  The calls of a pass are, in this order: the lookup of the
    network devices, made exactly with the CloudInit transport; at most
    one Reconfigure; at most one Customize. *)
Theorem customize_calls_shape vm resVM config updateArgs :
  ∃ reconfigure customize',
    calls (customize P K vm resVM config updateArgs) =
      (if String.eqb (Transport (Metadata updateArgs))
                     v1alpha1.VirtualMachineMetadataCloudInitTransport
       then [CallGetNetworkDevices] else [])
      ++ reconfigure ++ customize'
    ∧ (reconfigure = [] ∨ ∃ spec, reconfigure = [CallReconfigure spec])
    ∧ (customize' = [] ∨ ∃ spec, customize' = [CallCustomize spec]).
Proof.
  pass_split vm resVM config updateArgs Hcases.
  rewrite transportSwitch_calls_eq in Hcases. cbn [withData Metadata Transport] in Hcases.
  destruct (passSelection _ _ _ _ _ _) as [[configSpec custSpec] [err|]].
  { exists [], []. destruct Hcases as [_ ->]. rewrite !app_nil_r. eauto. }
  assert ((reconfigureStep P resVM configSpec).1 = []
          ∨ ∃ spec, (reconfigureStep P resVM configSpec).1 = [CallReconfigure spec]) as Hre.
  { destruct (reconfigureStep_shape resVM configSpec) as [->|(spec & _ & _ & ->)]; eauto. }
  assert ((customizeStep P K vm resVM config custSpec).1 = []
          ∨ ∃ spec, (customizeStep P K vm resVM config custSpec).1 = [CallCustomize spec]) as Hcu.
  { destruct (customizeStep_shape vm resVM config custSpec) as [->|(spec & _ & ->)]; eauto. }
  destruct (reconfigureStep _ _ _) as [calls2 [err|]]; cbn [fst] in Hre.
  { destruct Hcases as [_ ->]. exists calls2, []. by rewrite app_nil_r; eauto. }
  destruct (customizeStep _ _ _ _ _ _) as [calls3 done]; cbn [fst] in Hcu.
  destruct Hcases as [_ ->]. by exists calls2, calls3.
Qed.

(** X2.  A pass calls Customize with a spec exactly when the switch
    selected that spec without error, the reconfiguration step did not
    fail, the VM does not carry the bypass annotation and the guard on
    the pending marker answers that none is pending. *)
Theorem customize_submits_iff vm resVM config updateArgs (spec : CustSpec) :
  CallCustomize spec ∈ calls (customize P K vm resVM config updateArgs) ↔
  ∃ configSpec,
    passSelection P K vm resVM config updateArgs = (configSpec, Some spec, None)
    ∧ (reconfigureStep P resVM configSpec).2 = None
    ∧ index (Annotations vm) (VSphereCustomizationBypassKey K) ≠ VSphereCustomizationBypassDisable K
    ∧ IsCustomizationPendingExtraConfig K (VirtualMachineConfigInfo.ExtraConfig config) = Some false.
Proof.
  split; [apply (customize_calls_inv P K _ _ _ _ (CallCustomize spec))|].
  intros (configSpec & Hsel & Hre & Hbypass & Hpending).
  pass_split vm resVM config updateArgs Hcases. rewrite Hsel in Hcases.
  destruct (reconfigureStep _ _ _) as [calls2 err]. cbn in Hre. subst err.
  unfold customizeStep in Hcases.
  rewrite (proj2 (String.eqb_neq _ _) Hbypass), Hpending in Hcases.
  destruct (Customize resVM spec) as [err|]; [destruct (negb _)|];
    destruct Hcases as [_ ->]; set_solver.
Qed.

(** X3.  A failed reconfiguration ends the pass: the pass returns the
    error of the Reconfigure call and does not call Customize. *)
Theorem reconfigure_error_is_fatal vm resVM config updateArgs (spec : ConfigSpec) err :
  let out := customize P K vm resVM config updateArgs in
  CallReconfigure spec ∈ calls out →
  Reconfigure resVM spec = Some err →
  completion out = Returned (Some err)
  ∧ ∀ custSpec, CallCustomize custSpec ∉ calls out.
Proof.
  intros out Hin Herr.
  apply customize_calls_inv in Hin as (custSpec & Hsel & Hne).
  assert (reconfigureStep P resVM (Some spec) = ([CallReconfigure spec], Some err)) as Hre.
  { unfold reconfigureStep. by rewrite Hne, Herr. }
  split.
  - pass_split vm resVM config updateArgs Hcases. rewrite Hsel, Hre in Hcases.
    by destruct Hcases as [-> _].
  - intros cu Hcu. apply customize_calls_inv in Hcu as (configSpec & Hsel' & Hok & _).
    rewrite Hsel in Hsel'. injection Hsel' as <- _. by rewrite Hre in Hok.
Qed.

(** X4.  When the switch on the transport fails, which only happens
    with the CloudInit transport, the pass returns that error and calls
    neither Reconfigure nor Customize. *)
Theorem selection_error_is_fatal vm resVM config updateArgs configSpec custSpec err :
  let out := customize P K vm resVM config updateArgs in
  passSelection P K vm resVM config updateArgs = (configSpec, custSpec, Some err) →
  Transport (Metadata updateArgs) = v1alpha1.VirtualMachineMetadataCloudInitTransport
  ∧ configSpec = None ∧ custSpec = None
  ∧ completion out = Returned (Some err)
  ∧ calls out = [CallGetNetworkDevices].
Proof.
  intros out Hsel.
  assert (Transport (Metadata updateArgs) = v1alpha1.VirtualMachineMetadataCloudInitTransport)
    as Htransport.
  { revert Hsel. unfold passSelection, transportSwitch. cbn [withData Metadata Transport].
    destruct (String.eqb_spec (Transport (Metadata updateArgs))
                v1alpha1.VirtualMachineMetadataCloudInitTransport); [done|].
    by repeat destruct (String.eqb _ _). }
  split; [done|].
  assert (configSpec = None ∧ custSpec = None) as [-> ->].
  { revert Hsel. unfold passSelection. rewrite transportSwitch_CloudInit by done.
    destruct (customizeCloudInit _ _ _ _ _ _) as [calls1 sel] eqn:Hci. cbn. intros ->.
    by eapply customizeCloudInit_error. }
  split; [done|]. split; [done|].
  pass_split vm resVM config updateArgs Hcases. rewrite Hsel in Hcases.
  rewrite transportSwitch_calls_eq in Hcases. cbn [withData Metadata Transport] in Hcases.
  rewrite Htransport in Hcases. by destruct Hcases as [-> ->].
Qed.

(** X5.  Every error that a pass returns is the error of the switch on
    the transport, the error of its Reconfigure call, or the error of
    its Customize call, the latter only when it is not the pending
    fault. *)
Theorem customize_error_provenance vm resVM config updateArgs err :
  let out := customize P K vm resVM config updateArgs in
  completion out = Returned (Some err) →
  (passSelection P K vm resVM config updateArgs).2 = Some err
  ∨ (∃ spec, CallReconfigure spec ∈ calls out ∧ Reconfigure resVM spec = Some err)
  ∨ (∃ spec, CallCustomize spec ∈ calls out ∧ Customize resVM spec = Some err
       ∧ isCustomizationPendingError err = false).
Proof.
  intros out Hdone.
  pass_split vm resVM config updateArgs Hcases.
  destruct (passSelection _ _ _ _ _ _) as [[configSpec custSpec] [err'|]].
  { destruct Hcases as [Hret _]. rewrite Hret in Hdone. injection Hdone as ->. by left. }
  destruct (reconfigureStep _ _ _) as [calls2 [err'|]] eqn:Hre.
  { destruct Hcases as [Hret ->]. rewrite Hret in Hdone. injection Hdone as ->.
    right; left. apply reconfigureStep_error in Hre as (spec & -> & Herr).
    exists spec. split; [set_solver|done]. }
  right; right. unfold customizeStep in Hcases.
  destruct custSpec as [spec|]; [|destruct Hcases as [Hret _]; by rewrite Hret in Hdone].
  destruct (String.eqb _ _); [destruct Hcases as [Hret _]; by rewrite Hret in Hdone|].
  destruct (IsCustomizationPendingExtraConfig _ _) as [[]|];
    try (destruct Hcases as [Hret _]; by rewrite Hret in Hdone).
  destruct (Customize resVM spec) as [err'|] eqn:Hcu;
    [|destruct Hcases as [Hret _]; by rewrite Hret in Hdone].
  destruct (isCustomizationPendingError err') eqn:Hkind; cbn [negb] in Hcases;
    destruct Hcases as [Hret ->]; rewrite Hret in Hdone; [done|].
  injection Hdone as ->. exists spec. split; [set_solver|done].
Qed.

(** X6.  What the guard on the pending marker answers is decided by
    the first option under the pending key, nil options being skipped:
    it answers true when that option holds a non-empty string; false
    when there is no option under the key, in particular on an empty
    list, or when that option holds the empty string, whatever follows
    it; and the type assertion panics when that option holds no string. *)
Theorem IsCustomizationPendingExtraConfig_cases (extraConfig : list BaseOptionValue) :
  match IsCustomizationPendingExtraConfig K extraConfig with
  | Some true =>
      ∃ pre s post,
        extraConfig = pre ++ Some (mkOptionValue (GOSCPendingExtraConfigKey K) (AnyString s)) :: post
        ∧ noPendingKey K pre ∧ s ≠ ""
  | Some false =>
      noPendingKey K extraConfig
      ∨ ∃ pre post,
          extraConfig = pre ++ Some (mkOptionValue (GOSCPendingExtraConfigKey K) (AnyString "")) :: post
          ∧ noPendingKey K pre
  | None =>
      ∃ pre value post,
        extraConfig = pre ++ Some (mkOptionValue (GOSCPendingExtraConfigKey K) value) :: post
        ∧ noPendingKey K pre ∧ ∀ s, value ≠ AnyString s
  end.
Proof.
  assert (∀ opt rest, noPendingKey K rest →
            match opt with Some o => Key o ≠ GOSCPendingExtraConfigKey K | None => True end →
            noPendingKey K (opt :: rest)) as Hcons.
  { intros opt rest Hrest Hopt o [<-|Hin]%elem_of_cons; [done|by apply Hrest]. }
  assert (noPendingKey K []) as Hnil by (intros o Hin; by apply elem_of_nil in Hin).
  induction extraConfig as [|opt rest IH]; cbn [IsCustomizationPendingExtraConfig]; [by left|].
  assert (match opt with Some o => Key o ≠ GOSCPendingExtraConfigKey K | None => True end →
    match IsCustomizationPendingExtraConfig K rest with
    | Some true =>
        ∃ pre s post,
          opt :: rest = pre ++ Some (mkOptionValue (GOSCPendingExtraConfigKey K) (AnyString s)) :: post
          ∧ noPendingKey K pre ∧ s ≠ ""
    | Some false =>
        noPendingKey K (opt :: rest)
        ∨ ∃ pre post,
            opt :: rest = pre ++ Some (mkOptionValue (GOSCPendingExtraConfigKey K) (AnyString "")) :: post
            ∧ noPendingKey K pre
    | None =>
        ∃ pre value post,
          opt :: rest = pre ++ Some (mkOptionValue (GOSCPendingExtraConfigKey K) value) :: post
          ∧ noPendingKey K pre ∧ ∀ s, value ≠ AnyString s
    end) as Hskip.
  { intros Hopt. destruct (IsCustomizationPendingExtraConfig K rest) as [[]|].
    - destruct IH as (pre & s & post & -> & Hpre & Hs).
      exists (opt :: pre), s, post. split; [done|]. split; [by apply Hcons|done].
    - destruct IH as [Hrest|(pre & post & -> & Hpre)].
      + left. by apply Hcons.
      + right. exists (opt :: pre), post. split; [done|]. by apply Hcons.
    - destruct IH as (pre & value & post & -> & Hpre & Hvalue).
      exists (opt :: pre), value, post. split; [done|]. split; [by apply Hcons|done]. }
  destruct opt as [[key value]|]; [|by apply Hskip].
  cbn [Key Value]. destruct (String.eqb_spec key (GOSCPendingExtraConfigKey K)) as [->|Hkey];
    [|by apply Hskip].
  destruct value as [|s|n|b].
  - exists [], AnyNil, rest. by repeat split.
  - unfold nonEmpty. destruct (String.eqb_spec s "") as [->|Hs]; cbn [negb].
    + right. by exists [], rest.
    + by exists [], s, rest.
  - exists [], (AnyInt n), rest. by repeat split.
  - exists [], (AnyBool b), rest. by repeat split.
Qed.

(** X7.  A pass panics exactly when the switch selected a
    customization spec without error, the reconfiguration step did not
    fail, the VM does not carry the bypass annotation and the type
    assertion of the guard on the pending marker panics; Customize is
    then not called. *)
Theorem customize_panics_iff vm resVM config updateArgs :
  let out := customize P K vm resVM config updateArgs in
  (completion out = Panicked ↔
   ∃ configSpec custSpec,
     passSelection P K vm resVM config updateArgs = (configSpec, Some custSpec, None)
     ∧ (reconfigureStep P resVM configSpec).2 = None
     ∧ index (Annotations vm) (VSphereCustomizationBypassKey K) ≠ VSphereCustomizationBypassDisable K
     ∧ IsCustomizationPendingExtraConfig K (VirtualMachineConfigInfo.ExtraConfig config) = None)
  ∧ (completion out = Panicked → ∀ custSpec, CallCustomize custSpec ∉ calls out).
Proof.
  intros out. split.
  - pass_split vm resVM config updateArgs Hcases.
    destruct (passSelection _ _ _ _ _ _) as [[configSpec custSpec] [err|]].
    { destruct Hcases as [-> _]. split; [done|]. by intros (? & ? & [=] & _). }
    destruct (reconfigureStep _ _ _) as [calls2 [err|]] eqn:Hre.
    { destruct Hcases as [-> _]. split; [done|].
      intros (? & ? & ? & Hok & _). simplify_eq. by rewrite Hre in Hok. }
    unfold customizeStep in Hcases.
    destruct custSpec as [spec|].
    { destruct (String.eqb_spec (index (Annotations vm) (VSphereCustomizationBypassKey K))
                  (VSphereCustomizationBypassDisable K)) as [Hbypass|Hbypass].
      { destruct Hcases as [-> _]. split; [done|]. by intros (? & ? & _ & _ & ? & _). }
      destruct (IsCustomizationPendingExtraConfig _ _) as [[]|] eqn:Hpending.
      - destruct Hcases as [-> _]. split; [done|]. by intros (? & ? & _ & _ & _ & ?).
      - destruct (Customize resVM spec) as [err|]; [destruct (negb _)|];
          destruct Hcases as [-> _]; (split; [done|]); by intros (? & ? & _ & _ & _ & ?).
      - destruct Hcases as [-> _]. split; [|done]. intros _.
        exists configSpec, spec. by rewrite Hre. }
    destruct Hcases as [-> _]. split; [done|]. by intros (? & ? & [=] & _).
  - intros Hpanic custSpec Hin.
    apply customize_calls_inv in Hin as (configSpec & Hsel & Hre & Hbypass & Hpending).
    pass_split vm resVM config updateArgs Hcases. rewrite Hsel in Hcases.
    destruct (reconfigureStep _ _ _) as [calls2 err]. cbn in Hre. subst err.
    unfold customizeStep in Hcases.
    rewrite (proj2 (String.eqb_neq _ _) Hbypass), Hpending in Hcases.
    destruct (Customize resVM custSpec) as [err|]; [destruct (negb _)|];
      destruct Hcases as [Hret _]; by rewrite Hret in Hpanic.
Qed.

(** A pass that panics does so in the type assertion of the guard. *)
Lemma customize_panicked_guard vm resVM config updateArgs :
  completion (customize P K vm resVM config updateArgs) = Panicked →
  IsCustomizationPendingExtraConfig K (VirtualMachineConfigInfo.ExtraConfig config) = None.
Proof.
  pass_split vm resVM config updateArgs Hcases.
  destruct (passSelection _ _ _ _ _ _) as [[configSpec custSpec] [err|]].
  { by destruct Hcases as [-> _]. }
  destruct (reconfigureStep _ _ _) as [calls2 [err|]].
  { by destruct Hcases as [-> _]. }
  unfold customizeStep in Hcases.
  destruct custSpec as [spec|]; [|by destruct Hcases as [-> _]].
  destruct (String.eqb _ _); [by destruct Hcases as [-> _]|].
  destruct (IsCustomizationPendingExtraConfig _ _) as [[]|]; [| |done].
  - by destruct Hcases as [-> _].
  - destruct (Customize resVM spec) as [err|]; [destruct (negb _)|];
      by destruct Hcases as [-> _].
Qed.

(** On options that all hold strings the guard answers. *)
Lemma IsCustomizationPendingExtraConfig_strings (extraConfig : list BaseOptionValue) :
  (∀ optValue, Some optValue ∈ extraConfig → ∃ s, Value optValue = AnyString s) →
  is_Some (IsCustomizationPendingExtraConfig K extraConfig).
Proof.
  induction extraConfig as [|[optValue|] rest IH]; intros Hstrings;
    cbn [IsCustomizationPendingExtraConfig]; [by eexists| |].
  - destruct (String.eqb _ _).
    + destruct (Hstrings optValue) as [s ->]; [set_solver|]. by eexists.
    + apply IH. intros o Ho. apply Hstrings. set_solver.
  - apply IH. intros o Ho. apply Hstrings. set_solver.
Qed.

(** X8.  A pass on a live configuration all of whose extra-config
    options hold strings does not panic: it returns. *)
Theorem customize_returns_on_strings vm resVM config updateArgs :
  (∀ optValue, Some optValue ∈ VirtualMachineConfigInfo.ExtraConfig config →
               ∃ s, Value optValue = AnyString s) →
  ∃ err, completion (customize P K vm resVM config updateArgs) = Returned err.
Proof.
  intros Hstrings.
  destruct (completion (customize P K vm resVM config updateArgs)) as [err|] eqn:Hdone;
    [by exists err|].
  apply customize_panicked_guard in Hdone.
  apply IsCustomizationPendingExtraConfig_strings in Hstrings as [answer Hanswer].
  by rewrite Hdone in Hanswer.
Qed.

(** X9.  The cloud-init-prep flavour of CloudInit, when the lookup of
    the network devices and the marshalling of the metadata succeed:
    the configuration spec is nil and the customization spec carries
    the metadata text, no DNS server and no interface setting.  The
    userdata is read under ['user-data'] only: when that is empty the
    spec carries the empty userdata, whatever is stored under
    ['value'], and the codec is not consulted; otherwise the spec
    carries the decoded userdata, and a decoding failure is returned,
    wrapped, with no spec. *)
Theorem cloudinit_prep_spec vm resVM config updateArgs ethCards cloudInitMetadata :
  Transport (Metadata updateArgs) = v1alpha1.VirtualMachineMetadataCloudInitTransport →
  index (Annotations vm) (CloudInitTypeAnnotation K) = CloudInitTypeValueCloudInitPrep K →
  GetNetworkDevices resVM = Ok ethCards →
  GetCloudInitMetadata P vm
    (GetNetplan P (NetIfList updateArgs) ethCards (DNSServers updateArgs))
    (Data (Metadata updateArgs)) = Ok cloudInitMetadata →
  let userdata := index (Data (Metadata updateArgs)) "user-data" in
  let selected (userdata : string) :=
    transportSwitch P K vm resVM config updateArgs =
      ([CallGetNetworkDevices],
       (None,
        Some {| CustomizationSpec.Identity := CustomizationCloudinitPrep cloudInitMetadata userdata;
                CustomizationSpec.DnsServerList := [];
                CustomizationSpec.NicSettingMap := [] |},
        None)) in
  (userdata = "" → selected "")
  ∧ (∀ plainText, userdata ≠ "" → TryToDecodeBase64Gzip P userdata = Ok plainText →
       selected plainText)
  ∧ (∀ err, userdata ≠ "" → TryToDecodeBase64Gzip P userdata = Err err →
       transportSwitch P K vm resVM config updateArgs =
         ([CallGetNetworkDevices],
          (None, None, Some (Errorf "decoding cloud-init prep userdata failed" err)))).
Proof.
  intros Htransport Hannotation Hdevices Hmetadata userdata selected.
  unfold selected. rewrite transportSwitch_CloudInit by done. unfold customizeCloudInit.
  rewrite Hdevices, Hmetadata, Hannotation, String.eqb_refl.
  unfold GetCloudInitPrepCustSpec. fold userdata. split; [|split].
  - by intros ->.
  - intros plainText Hne Hdecode. by rewrite nonEmpty_true, Hdecode.
  - intros err Hne Hdecode. by rewrite nonEmpty_true, Hdecode.
Qed.

(** X10.  With the CloudInit transport a pass never calls both
    Reconfigure and Customize. *)
Theorem cloudinit_reconfigure_or_customize vm resVM config updateArgs :
  Transport (Metadata updateArgs) = v1alpha1.VirtualMachineMetadataCloudInitTransport →
  let out := customize P K vm resVM config updateArgs in
  ¬ ((∃ configSpec, CallReconfigure configSpec ∈ calls out)
     ∧ (∃ custSpec, CallCustomize custSpec ∈ calls out)).
Proof.
  intros Htransport out [[configSpec Hre] [custSpec Hcu]].
  apply customize_calls_inv in Hre as (cu & Hsel & _).
  apply customize_calls_inv in Hcu as (cs & Hsel' & _).
  rewrite Hsel in Hsel'. injection Hsel' as <- ->.
  revert Hsel. unfold passSelection. rewrite transportSwitch_CloudInit by done.
  destruct (customizeCloudInit _ _ _ _ _ _) as [calls1 sel] eqn:Hci. cbn. intros ->.
  apply customizeCloudInit_exactly_one in Hci as [[_ [=]]|[[=] _]].
Qed.

(** X11.  With the guest-info flavour of CloudInit, that is with any
    cloud-init type annotation but the cloud-init-prep one, a pass never
    calls Customize and never panics, whatever the bypass annotation
    and the pending marker: when the switch selects a configuration
    spec, the pass submits it and returns what Reconfigure returns. *)
Theorem cloudinit_guestinfo_pass vm resVM config updateArgs :
  Transport (Metadata updateArgs) = v1alpha1.VirtualMachineMetadataCloudInitTransport →
  index (Annotations vm) (CloudInitTypeAnnotation K) ≠ CloudInitTypeValueCloudInitPrep K →
  let out := customize P K vm resVM config updateArgs in
  (∀ custSpec, CallCustomize custSpec ∉ calls out)
  ∧ (∀ configSpec custSpec,
       passSelection P K vm resVM config updateArgs = (Some configSpec, custSpec, None) →
       completion out = Returned (Reconfigure resVM configSpec)
       ∧ calls out = [CallGetNetworkDevices; CallReconfigure configSpec])
  ∧ (∀ custSpec, passSelection P K vm resVM config updateArgs ≠ (None, custSpec, None)).
Proof.
  intros Htransport Hannotation out.
  assert (∀ configSpec custSpec err,
            passSelection P K vm resVM config updateArgs = (configSpec, custSpec, err) →
            custSpec = None ∧ (err = None → is_Some configSpec)) as Hnone.
  { intros configSpec custSpec err. unfold passSelection.
    rewrite transportSwitch_CloudInit by done. unfold customizeCloudInit.
    destruct (GetNetworkDevices resVM); [|by intros [= <- <- <-]].
    destruct (GetCloudInitMetadata _ _ _ _); [|by intros [= <- <- <-]].
    rewrite (proj2 (String.eqb_neq _ _) Hannotation).
    destruct (GetCloudInitGuestInfoCustSpec _ _ _ _ _); cbn; intros [= <- <- <-];
      (split; [done|]); [by eexists|done]. }
  split; [|split].
  - intros custSpec Hin. apply customize_calls_inv in Hin as (configSpec & Hsel & _).
    by apply Hnone in Hsel as [[=] _].
  - intros configSpec custSpec Hsel.
    destruct (Hnone _ _ _ Hsel) as [-> _].
    assert (DeepEqualDefault P configSpec = false) as Hne.
    { revert Hsel. unfold passSelection. rewrite transportSwitch_CloudInit by done.
      destruct (customizeCloudInit _ _ _ _ _ _) as [calls1 sel] eqn:Hci. cbn. intros ->.
      apply customizeCloudInit_removes_vapp in Hci.
      unfold DeepEqualDefault. rewrite Hci. by repeat case_match. }
    pass_split vm resVM config updateArgs Hcases. rewrite Hsel in Hcases.
    rewrite transportSwitch_calls_eq in Hcases. cbn [withData Metadata Transport] in Hcases.
    rewrite Htransport in Hcases. unfold reconfigureStep in Hcases.
    rewrite Hne in Hcases. cbn [negb customizeStep] in Hcases.
    destruct (Reconfigure resVM configSpec); by destruct Hcases as [-> ->].
  - intros custSpec Hsel. apply Hnone in Hsel as [_ Hsome].
    by destruct (Hsome eq_refl).
Qed.

(** The templating writes under the keys that it reads. *)
Lemma customize_stored_dom vm resVM config updateArgs :
  dom (stored (customize P K vm resVM config updateArgs)) = dom (Data (Metadata updateArgs)).
Proof.
  rewrite customize_stored. unfold passData.
  destruct (IsVMServicePublicCloudBYOIFSSEnabled P); [|done].
  apply set_eq. intros key. rewrite !elem_of_dom. unfold TemplateVMMetadata.
  rewrite map_lookup_imap.
  destruct (Data (Metadata updateArgs) !! key); cbn; split; by intros [? ?] || eauto.
Qed.

(** X12.  A pass keeps the keys of the metadata: the stored map has the
    keys of the metadata of the arguments, whether the templating ran
    or not, and an empty metadata stays empty. *)
Theorem customize_keeps_metadata_keys vm resVM config updateArgs :
  let out := customize P K vm resVM config updateArgs in
  dom (stored out) = dom (Data (Metadata updateArgs))
  ∧ (Data (Metadata updateArgs) = ∅ → stored out = ∅).
Proof.
  intros out. pose proof (customize_stored_dom vm resVM config updateArgs) as Hdom.
  split; [done|]. intros Hempty. apply dom_empty_iff_L. unfold out.
  by rewrite Hdom, Hempty, dom_empty_L.
Qed.

(** X13.  The templating renders every value on its own: what it stores
    under a key depends on the key and its value, the VM, the
    interfaces and the DNS servers, and on no other entry of the
    metadata. *)
Theorem TemplateVMMetadata_independent vm updateArgs updateArgs' key :
  NetIfList updateArgs = NetIfList updateArgs' →
  DNSServers updateArgs = DNSServers updateArgs' →
  Data (Metadata updateArgs) !! key = Data (Metadata updateArgs') !! key →
  TemplateVMMetadata P vm updateArgs !! key = TemplateVMMetadata P vm updateArgs' !! key.
Proof.
  intros Hnics Hdns Hkey. unfold TemplateVMMetadata.
  rewrite !map_lookup_imap, !NicInfoToDevicesStatus_map, Hnics, Hdns, Hkey. done.
Qed.



(** X14.  The customization spec that a pass submits: with any
    transport but CloudInit it is the Linux-prep spec of the VM, with
    the name of the VM as host name; with CloudInit it is a
    cloud-init-prep spec, without DNS server and interface setting, and
    the VM then carries the cloud-init-prep annotation. *)
Theorem customize_submitted_spec vm resVM config updateArgs (spec : CustSpec) :
  CallCustomize spec ∈ calls (customize P K vm resVM config updateArgs) →
  if String.eqb (Transport (Metadata updateArgs)) v1alpha1.VirtualMachineMetadataCloudInitTransport
  then
    index (Annotations vm) (CloudInitTypeAnnotation K) = CloudInitTypeValueCloudInitPrep K
    ∧ ∃ metadata userdata,
        spec = {| CustomizationSpec.Identity := CustomizationCloudinitPrep metadata userdata;
                  CustomizationSpec.DnsServerList := [];
                  CustomizationSpec.NicSettingMap := [] |}
  else spec = GetLinuxPrepCustSpec P (Name vm) updateArgs.
Proof.
  intros (configSpec & Hsel & _)%customize_calls_inv. revert Hsel.
  unfold passSelection, transportSwitch. cbn [withData Metadata Transport].
  destruct (String.eqb _ v1alpha1.VirtualMachineMetadataCloudInitTransport).
  - unfold customizeCloudInit.
    destruct (GetNetworkDevices resVM); [|done].
    destruct (GetCloudInitMetadata _ _ _ _) as [metadata|]; [|done].
    destruct (String.eqb_spec (index (Annotations vm) (CloudInitTypeAnnotation K))
                (CloudInitTypeValueCloudInitPrep K)) as [Hprep|Hprep].
    + unfold GetCloudInitPrepCustSpec. destruct (nonEmpty _).
      * destruct (TryToDecodeBase64Gzip P _) as [plainText|]; cbn; [|done].
        intros [= _ <-]. eauto.
      * cbn. intros [= _ <-]. eauto.
    + by destruct (GetCloudInitGuestInfoCustSpec _ _ _ _ _).
  - repeat destruct (String.eqb _ _); cbn; by intros [= _ <-].
Qed.

End pass_properties.

(** * The merged extra configuration *)



Section merged_specs.

Context (P : Platform) (K : Constants).








End merged_specs.

(** ** The properties on concrete passes *)

(** C1 fails as stated: with the OvfEnv transport and a live vApp
    configuration the switch returns both specs. *)
Lemma ovfenv_returns_both_specs :
  let '(_, (configSpec, custSpec, _)) :=
    transportSwitch (fixture.platform false) fixture.constants fixture.vm
      (fixture.healthy false) fixture.configWithVApp (fixture.args "OvfEnv" ∅) in
  is_Some configSpec ∧ is_Some custSpec ∧ ¬ exactlyOneNonNil configSpec custSpec.
Proof.
  cbn. split; [by eexists|]. split; [by eexists|].
  intros [[_ [=]]|[[=] _]].
Qed.

(** C2 fails as stated: with the feature disabled the escapes stay. *)
Lemma templating_disabled_keeps_escapes :
  let out :=
    customize (fixture.platform false) fixture.constants fixture.vm (fixture.healthy false)
      (fixture.config false []) (fixture.args "" {[ "greeting" := "hello \{world\}" ]}) in
  stored out !! "greeting" = Some "hello \{world\}"
  ∧ stored out !! "greeting" ≠ Some "hello {world}".
Proof. by vm_compute. Qed.

(** C3 fails as stated: with the pending marker set, a pass whose
    reconfiguration fails returns that error. *)
Lemma pending_marker_reconfigure_error :
  let out :=
    customize (fixture.platform false) fixture.constants fixture.vm fixture.reconfigureFails
      (fixture.config false [fixture.pendingMarker])
      (fixture.args "ExtraConfig" {[ "guestinfo.hostname" := "vm-1" ]}) in
  IsCustomizationPendingExtraConfig fixture.constants [fixture.pendingMarker] = Some true
  ∧ completion out = Returned (Some (TaskError InvalidPowerState "invalid power state"))
  ∧ completion out ≠ Returned None.
Proof. by vm_compute. Qed.

(** C8 fails as stated: with the bypass annotation, a pass whose
    reconfiguration fails returns that error. *)
Lemma bypass_annotation_reconfigure_error :
  let out :=
    customize (fixture.platform false) fixture.constants fixture.vmBypass fixture.reconfigureFails
      (fixture.config false [])
      (fixture.args "ExtraConfig" {[ "guestinfo.hostname" := "vm-1" ]}) in
  is_Some (passSelection (fixture.platform false) fixture.constants fixture.vmBypass
             fixture.reconfigureFails (fixture.config false [])
             (fixture.args "ExtraConfig" {[ "guestinfo.hostname" := "vm-1" ]})).1.2
  ∧ completion out = Returned (Some (TaskError InvalidPowerState "invalid power state"))
  ∧ completion out ≠ Returned None.
Proof. vm_compute. split; [by eexists|done]. Qed.

(** The pending marker on a pass without transport. *)
Lemma pending_marker_skips_customize_witness :
  let out :=
    customize (fixture.platform false) fixture.constants fixture.vm (fixture.healthy false)
      (fixture.config false [fixture.pendingMarker]) (fixture.args "" ∅) in
  (∀ custSpec, CallCustomize custSpec ∉ calls out) ∧ completion out = Returned None.
Proof.
  split; [|reflexivity].
  apply (pending_marker_skips_customize (fixture.platform false) fixture.constants fixture.vm
           (fixture.healthy false) (fixture.config false [fixture.pendingMarker])
           (fixture.args "" ∅) [] [] "imc.xml").
  - reflexivity.
  - discriminate.
  - intros optValue Hin. inversion Hin.
Defined.

(** The bypass annotation on a pass with the ExtraConfig transport. *)
Lemma bypass_annotation_skips_customize_witness :
  let out :=
    customize (fixture.platform false) fixture.constants fixture.vmBypass (fixture.healthy false)
      (fixture.config false []) (fixture.args "ExtraConfig" ∅) in
  (∀ custSpec, CallCustomize custSpec ∉ calls out) ∧ completion out = Returned None.
Proof.
  split; [|reflexivity].
  apply (bypass_annotation_skips_customize (fixture.platform false) fixture.constants
           fixture.vmBypass (fixture.healthy false) (fixture.config false [])
           (fixture.args "ExtraConfig" ∅) None
           (GetLinuxPrepCustSpec (fixture.platform false) "vm-1" (fixture.args "ExtraConfig" ∅))).
  - reflexivity.
  - reflexivity.
Defined.

(** A customization that fails because one is pending, and one that
    fails for another reason. *)
Lemma customize_error_handling_witness :
  completion
    (customize (fixture.platform false) fixture.constants fixture.vm
       (fixture.customizeFails CustomizationPending) (fixture.config false [])
       (fixture.args "" ∅))
  = Returned None
  ∧ completion
      (customize (fixture.platform false) fixture.constants fixture.vm
         (fixture.customizeFails CustomizationFault) (fixture.config false [])
         (fixture.args "" ∅))
    = Returned (Some (TaskError CustomizationFault "customization failed")).
Proof.
  split.
  - refine (proj1 (customize_error_handling (fixture.platform false) fixture.constants fixture.vm
             (fixture.customizeFails CustomizationPending) (fixture.config false [])
             (fixture.args "" ∅)
             (GetLinuxPrepCustSpec (fixture.platform false) "vm-1" (fixture.args "" ∅))
             (TaskError CustomizationPending "customization failed") _ eq_refl)).
    apply list_elem_of_here.
  - refine (proj1 (customize_error_handling (fixture.platform false) fixture.constants fixture.vm
             (fixture.customizeFails CustomizationFault) (fixture.config false [])
             (fixture.args "" ∅)
             (GetLinuxPrepCustSpec (fixture.platform false) "vm-1" (fixture.args "" ∅))
             (TaskError CustomizationFault "customization failed") _ eq_refl)).
    apply list_elem_of_here.
Defined.

(** The OvfEnv transport on a live configuration without vApp
    configuration. *)
Lemma ovfenv_without_vapp_config_witness :
  let out :=
    customize (fixture.platform false) fixture.constants fixture.vm (fixture.healthy false)
      (fixture.config false []) (fixture.args "OvfEnv" {[ "hostname" := "vm-1" ]}) in
  (calls out, completion out)
  = ([CallCustomize (GetLinuxPrepCustSpec (fixture.platform false) "vm-1"
                       (fixture.args "OvfEnv" {[ "hostname" := "vm-1" ]}))],
     Returned None).
Proof.
  exact (proj2 (proj2
    (ovfenv_without_vapp_config (fixture.platform false) fixture.constants fixture.vm
       (fixture.healthy false) (fixture.config false [])
       (fixture.args "OvfEnv" {[ "hostname" := "vm-1" ]}) eq_refl (or_introl eq_refl)))).
Defined.






(** A pass whose reconfiguration fails. *)
Lemma reconfigure_error_is_fatal_witness :
  completion
    (customize (fixture.platform false) fixture.constants fixture.vm fixture.reconfigureFails
       (fixture.config false [])
       (fixture.args "ExtraConfig" {[ "guestinfo.hostname" := "vm-1" ]}))
  = Returned (Some (TaskError InvalidPowerState "invalid power state")).
Proof.
  refine (proj1 (reconfigure_error_is_fatal (fixture.platform false) fixture.constants fixture.vm
            fixture.reconfigureFails (fixture.config false [])
            (fixture.args "ExtraConfig" {[ "guestinfo.hostname" := "vm-1" ]})
            {| VirtualMachineConfigSpec.ExtraConfig := [stringOption "guestinfo.hostname" "vm-1"];
               VirtualMachineConfigSpec.VAppConfig := None;
               VirtualMachineConfigSpec.VAppConfigRemoved := None |}
            (TaskError InvalidPowerState "invalid power state") _ eq_refl)).
  vm_compute. apply list_elem_of_here.
Defined.

(** A pass whose lookup of the network devices fails. *)
Lemma selection_error_is_fatal_witness :
  let out :=
    customize (fixture.platform false) fixture.constants fixture.vm fixture.devicesFail
      (fixture.config false []) (fixture.args "CloudInit" ∅) in
  completion out = Returned (Some (ErrorString "no such device"))
  ∧ calls out = [CallGetNetworkDevices].
Proof.
  apply (selection_error_is_fatal (fixture.platform false) fixture.constants fixture.vm
           fixture.devicesFail (fixture.config false []) (fixture.args "CloudInit" ∅)
           None None (ErrorString "no such device")).
  by vm_compute.
Defined.

(** A pass whose customization fails for another reason than a pending
    one. *)
Lemma customize_error_provenance_witness :
  ∃ spec,
    Customize (fixture.customizeFails CustomizationFault) spec
    = Some (TaskError CustomizationFault "customization failed").
Proof.
  destruct (customize_error_provenance (fixture.platform false) fixture.constants fixture.vm
              (fixture.customizeFails CustomizationFault) (fixture.config false [])
              (fixture.args "" ∅) (TaskError CustomizationFault "customization failed"))
    as [Hsel|[(spec & _ & Herr)|(spec & _ & Herr & _)]].
  - by vm_compute.
  - by vm_compute in Hsel.
  - by vm_compute in Herr.
  - by exists spec.
Defined.

(** A pass on a live configuration that holds the pending marker. *)
Lemma customize_returns_on_strings_witness :
  ∃ err,
    completion
      (customize (fixture.platform false) fixture.constants fixture.vm (fixture.healthy false)
         (fixture.config false [fixture.pendingMarker]) (fixture.args "" ∅))
    = Returned err.
Proof.
  apply (customize_returns_on_strings (fixture.platform false) fixture.constants).
  intros optValue Hin. apply list_elem_of_singleton in Hin. injection Hin as ->.
  by eexists.
Defined.

(** The cloud-init-prep flavour on a VM that carries the annotation,
    without userdata. *)
Lemma cloudinit_prep_spec_witness :
  let vm :=
    {| Name := "vm-1"; UID := "uid-1";
       Annotations := {[ CloudInitTypeAnnotation fixture.constants :=
                           CloudInitTypeValueCloudInitPrep fixture.constants ]} |} in
  transportSwitch (fixture.platform false) fixture.constants vm (fixture.healthy false)
    (fixture.config false []) (fixture.args "CloudInit" {[ "value" := "#cloud-config" ]})
  = ([CallGetNetworkDevices],
     (None,
      Some {| CustomizationSpec.Identity := CustomizationCloudinitPrep "instance-id: uid-1" "";
              CustomizationSpec.DnsServerList := [];
              CustomizationSpec.NicSettingMap := [] |},
      None)).
Proof.
  intros vm.
  refine (proj1 (cloudinit_prep_spec (fixture.platform false) fixture.constants vm
                   (fixture.healthy false) (fixture.config false [])
                   (fixture.args "CloudInit" {[ "value" := "#cloud-config" ]})
                   tt "instance-id: uid-1" eq_refl eq_refl eq_refl eq_refl) eq_refl).
Defined.

(** A pass of the guest-info flavour of CloudInit. *)
Lemma cloudinit_reconfigure_or_customize_witness :
  let out :=
    customize (fixture.platform false) fixture.constants fixture.vm (fixture.healthy false)
      (fixture.config false []) (fixture.args "CloudInit" ∅) in
  ¬ ((∃ configSpec, CallReconfigure configSpec ∈ calls out)
     ∧ (∃ custSpec, CallCustomize custSpec ∈ calls out)).
Proof.
  apply (cloudinit_reconfigure_or_customize (fixture.platform false) fixture.constants
           fixture.vm (fixture.healthy false) (fixture.config false [])
           (fixture.args "CloudInit" ∅) eq_refl).
Defined.

(** A pass of the guest-info flavour on a VM that carries the bypass
    annotation and on a live configuration that holds the pending
    marker. *)
Lemma cloudinit_guestinfo_pass_witness :
  completion
    (customize (fixture.platform false) fixture.constants fixture.vmBypass
       fixture.reconfigureFails (fixture.config false [fixture.pendingMarker])
       (fixture.args "CloudInit" ∅))
  = Returned (Some (TaskError InvalidPowerState "invalid power state")).
Proof.
  destruct (cloudinit_guestinfo_pass (fixture.platform false) fixture.constants fixture.vmBypass
              fixture.reconfigureFails (fixture.config false [fixture.pendingMarker])
              (fixture.args "CloudInit" ∅) eq_refl) as (_ & Hpass & _).
  { by vm_compute. }
  refine (proj1 (Hpass _ None _)). vm_compute. reflexivity.
Defined.

(** Two metadata maps that agree on a key. *)
Lemma TemplateVMMetadata_independent_witness :
  TemplateVMMetadata (fixture.platform true) fixture.vm
    (fixture.args "" {[ "greeting" := "hello \{world\}"; "other" := "{{ broken" ]})
    !! "greeting"
  = TemplateVMMetadata (fixture.platform true) fixture.vm
      (fixture.args "ExtraConfig" {[ "greeting" := "hello \{world\}" ]})
      !! "greeting".
Proof.
  apply (TemplateVMMetadata_independent (fixture.platform true) fixture.vm
           (fixture.args "" {[ "greeting" := "hello \{world\}"; "other" := "{{ broken" ]})
           (fixture.args "ExtraConfig" {[ "greeting" := "hello \{world\}" ]})
           "greeting" eq_refl eq_refl).
  by vm_compute.
Defined.

(** The spec that a pass without transport submits. *)
Lemma customize_submitted_spec_witness :
  GetLinuxPrepCustSpec (fixture.platform false) "vm-1" (fixture.args "" ∅)
  = @CustomizationSpec.mk (fixture.platform false)
      (CustomizationLinuxPrep "vm-1" (Some true)) ["8.8.8.8"]
      [{| IP := "10.0.0.5"; SubnetMask := "255.255.255.0"; Gateway := "10.0.0.1" |}].
Proof.
  symmetry.
  apply (customize_submitted_spec (fixture.platform false) fixture.constants fixture.vm
           (fixture.healthy false) (fixture.config false []) (fixture.args "" ∅)).
  vm_compute. apply list_elem_of_here.
Defined.
